(** * weather_parser: the collection and freshness-gated persistence pipeline

    A shallow embedding of
      - [shared/async_parser.py]   ([fetch_city_weather], [fetch_all_cities_async]),
      - [shared/database.py]       ([get_last_weather_record], [is_data_fresh],
                                    [save_weather_data]),
      - [airflow/dags/async_weather_dag.py] ([save_results_to_db]),
      - [celery_worker/tasks.py]   ([save_weather_task]),
    followed by the properties of the specification checked against it.

    Conventions of the model.
      - Python values that travel through JSON are [pyval]s.  A Python float is
        the rational it denotes ([Q]); instants are integers counting
        microseconds (the resolution of [datetime]).  The age that
        [is_data_fresh] compares with the threshold is computed as Python
        computes it, each operation rounding its exact result to the nearest
        double ([to_double]).
      - The database converts what it is handed to the type of the column
        ([db_cast]); a row of the table is the row as stored.
      - A Python call that may raise returns a [pyres]: [Ok v] or [Raise e].
      - What the outside world does during a call (the HTTP reply, whether the
        database can be reached, whether a statement succeeds, what the clocks
        show) is an explicit argument: [http_reply] and [Env].
      - The table [weather_data] is the list of its rows in insertion order. *)

From Stdlib Require Import ZArith QArith Qpower Lia Lqa.
From stdpp Require Import base option list strings gmap sorting.

Local Open Scope string_scope.
Local Open Scope Z_scope.
Set Warnings "-register-all".

(** ** Python values and exceptions *)

Module Py.

(** A value decoded from JSON: [None], a bool, an int, a float, a str, a list
    or a dict with string keys. *)
Inductive pyval : Type :=
| JNull
| JBool (b : bool)
| JInt (n : Z)
| JFloat (q : Q)
| JStr (s : string)
| JArr (l : list pyval)
| JObj (m : gmap string pyval).

(** The exception classes the modelled code can meet. *)
Inductive exn : Type :=
| KeyError (k : string)
| IndexError
| TypeError
| AttributeError
| ValueError
| TimeoutError
| ClientError
| JSONDecodeError
| SQLAlchemyError.

Inductive pyres (A : Type) : Type :=
| Ok (a : A)
| Raise (e : exn).
Arguments Ok {A} a.
Arguments Raise {A} e.

Definition bind {A B : Type} (x : pyres A) (f : A -> pyres B) : pyres B :=
  match x with
  | Ok a => f a
  | Raise e => Raise e
  end.

Notation "x <~ c1 ;; c2" := (bind c1 (fun x => c2))
  (at level 100, c1 at next level, right associativity).

(** [v[k]] for a string key [k]. *)
Definition getitem (v : pyval) (k : string) : pyres pyval :=
  match v with
  | JObj m =>
      match m !! k with
      | Some x => Ok x
      | None => Raise (KeyError k)
      end
  | _ => Raise TypeError
  end.

(** [v[0]]: the first element of a list, the first character of a str; a dict
    decoded from JSON has no integer key. *)
Definition getitem0 (v : pyval) : pyres pyval :=
  match v with
  | JArr (x :: _) => Ok x
  | JArr [] => Raise IndexError
  | JStr (String c _) => Ok (JStr (String c EmptyString))
  | JStr EmptyString => Raise IndexError
  | JObj _ => Raise (KeyError "0")
  | _ => Raise TypeError
  end.

(** [v.get(k, dflt)]: only dicts have the method. *)
Definition get (v : pyval) (k : string) (dflt : pyval) : pyres pyval :=
  match v with
  | JObj m => Ok (default dflt (m !! k))
  | _ => Raise AttributeError
  end.

End Py.

(** ** shared/async_parser.py *)

Module Parser.
Import Py.

(** Rounding of a rational to the nearest integer, ties to even. *)
Definition round_half_even (q : Q) : Z :=
  let n := Qnum q in
  let d := Z.pos (Qden q) in
  let f := n / d in
  match 2 * (n mod d) ?= d with
  | Lt => f
  | Gt => f + 1
  | Eq => if Z.even f then f else f + 1
  end.

(** [round(x, 1)]: an int (or bool) comes back as an int, a float is rounded
    to one decimal, anything else has no [__round__]. *)
Definition round1 (v : pyval) : pyres pyval :=
  match v with
  | JInt n => Ok (JInt n)
  | JBool b => Ok (JInt (if b then 1 else 0))
  | JFloat q => Ok (JFloat (Qmake (round_half_even (q * 10)) 10))
  | _ => Raise TypeError
  end.

(** What [session.get(url, params=params, timeout=10)] meets. *)
Inductive http_reply : Type :=
| TimedOut                                    (* asyncio.TimeoutError *)
| ConnectionFailed                            (* any other exception of the request *)
| Response (status : Z) (json : pyres pyval). (* [json]: what [await response.json()] gives *)

(** The dict returned by [fetch_city_weather] on success; its keys are fixed. *)
Record Observation : Type := mkObservation {
  o_city : string;
  o_temperature : pyval;
  o_humidity : pyval;
  o_pressure : pyval;
  o_description : pyval;
  o_wind_speed : pyval;
  o_clouds : pyval;
  o_timestamp : Q
}.

(** The dict literal of lines 26-35, evaluated entry by entry. *)
Definition build_observation (city : string) (data : pyval) (time_time : Q)
  : pyres Observation :=
  main <~ getitem data "main" ;;
  temp <~ getitem main "temp" ;;
  temperature <~ round1 temp ;;
  main' <~ getitem data "main" ;;
  humidity <~ getitem main' "humidity" ;;
  main'' <~ getitem data "main" ;;
  pressure <~ getitem main'' "pressure" ;;
  weather <~ getitem data "weather" ;;
  weather0 <~ getitem0 weather ;;
  description <~ getitem weather0 "description" ;;
  wind <~ getitem data "wind" ;;
  wind_speed <~ get wind "speed" (JInt 0) ;;
  clouds <~ getitem data "clouds" ;;
  clouds_all <~ get clouds "all" (JInt 0) ;;
  Ok {| o_city := city;
        o_temperature := temperature;
        o_humidity := humidity;
        o_pressure := pressure;
        o_description := description;
        o_wind_speed := wind_speed;
        o_clouds := clouds_all;
        o_timestamp := time_time |}.

(** [fetch_city_weather(session, city)]: [Some] is the returned dict, [None]
    is Python's [None].  Every exception of the body is caught by one of the
    two [except] clauses, both of which return [None]. *)
Definition fetch_city_weather (city : string) (reply : http_reply) (time_time : Q)
  : option Observation :=
  match reply with
  | Response status json =>
      if status =? 200 then
        match (data <~ json ;; build_observation city data time_time) with
        | Ok d => Some d
        | Raise _ => None
        end
      else if status =? 401 then None
      else None
  | TimedOut => None
  | ConnectionFailed => None
  end.

(** An entry of the list returned by [asyncio.gather] over the tasks, called
    with [return_exceptions=True]. *)
Inductive gathered : Type :=
| Returned (result : option Observation)
| Excepted (e : exn).

(** The filtering loop of lines 67-72, with its accumulator. *)
Fixpoint collect (results : list gathered) (successful_results : list Observation)
  : list Observation :=
  match results with
  | [] => successful_results
  | Excepted _ :: rest => collect rest successful_results
  | Returned None :: rest => collect rest successful_results
  | Returned (Some d) :: rest => collect rest (successful_results ++ [d])%list
  end.

(** [fetch_all_cities_async(cities)].  The [i]-th task meets the reply
    [net i] and reads the clock as [clock i]; [gather] keeps the order of the
    tasks. *)
Definition fetch_all_cities_async (cities : list string)
    (net : nat -> http_reply) (clock : nat -> Q) : list Observation :=
  let tasks := imap (fun i city => fetch_city_weather city (net i) (clock i)) cities in
  let results := Returned <$> tasks in
  collect results [].

(** [parse_all_cities_sync(cities)] is [asyncio.run] of the above. *)
Definition parse_all_cities_sync := fetch_all_cities_async.

End Parser.

(** ** shared/database.py *)

Module Database.
Import Py.

(** A [datetime]: its wall-clock fields as microseconds since the epoch, and
    the offset of its [tzinfo] in microseconds ([None] for a naive value). *)
Record datetime : Type := mkDatetime {
  wall : Z;
  utcoffset : option Z
}.

(** [a - b] for two datetimes: aware values are compared as instants, naive
    ones by their fields, and Python refuses to mix the two. *)
Definition datetime_sub (a b : datetime) : pyres Z :=
  match utcoffset a, utcoffset b with
  | Some oa, Some ob => Ok ((wall a - oa) - (wall b - ob))
  | None, None => Ok (wall a - wall b)
  | _, _ => Raise TypeError
  end.

Definition Qltb (a b : Q) : bool :=
  match (a ?= b)%Q with
  | Lt => true
  | _ => false
  end.

(** The power of two at or below a positive rational:
    [2 ^ binade q <= q < 2 ^ (binade q + 1)]. *)
Definition binade (q : Q) : Z :=
  let k := Z.log2 (Qnum q) - Z.log2 (Z.pos (Qden q)) in
  if Qltb q (2 ^ k)%Q then k - 1 else k.

(** The double nearest to a positive rational: a significand of 53 bits,
    ties to even. *)
Definition to_double_pos (q : Q) : Q :=
  let e := binade q - 52 in
  (inject_Z (Parser.round_half_even (q / 2 ^ e)%Q) * 2 ^ e)%Q.

(** The double nearest to a rational, as Python's float arithmetic rounds
    every exact result.  The exponent is not bounded: the quantities rounded
    here, seconds and minutes between two datetimes, are far from overflow
    and underflow. *)
Definition to_double (q : Q) : Q :=
  match (Qnum q ?= 0)%Z with
  | Eq => 0%Q
  | Gt => to_double_pos q
  | Lt => (- to_double_pos (- q))%Q
  end.

(** [a / b] on floats, for a divisor that is not zero. *)
Definition float_div (a b : Q) : Q := to_double (a / b).

(** [timedelta.total_seconds()] of a difference given in microseconds: the
    integer division [microseconds / 10**6], correctly rounded. *)
Definition total_seconds (delta : Z) : Q := to_double (Qmake delta 1000000).

#[global] Arguments to_double : simpl never.
#[global] Arguments float_div : simpl never.
#[global] Arguments total_seconds : simpl never.

(** The column types of class [WeatherData]. *)
Inductive column_type : Type :=
| SqlInteger
| SqlFloat
| SqlString (length : nat).

(** A row of the table [weather_data] (class [WeatherData]): [w_humidity],
    [w_pressure] and [w_clouds] are Integer columns, [w_temperature] and
    [w_wind_speed] Float columns, [w_description] is String(200) and
    [w_city] String(100); [w_id] and [w_created_at] are assigned by the
    database.  The same record stands for the object built by the
    constructor, whose attributes are the values handed to it. *)
Record WeatherData : Type := mkWeatherData {
  w_id : Z;
  w_city : string;
  w_temperature : pyval;
  w_humidity : pyval;
  w_pressure : pyval;
  w_description : pyval;
  w_wind_speed : pyval;
  w_clouds : pyval;
  w_created_at : option datetime
}.

Definition Table : Type := list WeatherData.

(** What the outside world does during one call of [save_weather_data]. *)
Record Env : Type := mkEnv {
  (** [int(os.getenv('MIN_AGE_MINUTES', '30'))] when the variable is set;
      [None] when it is not. *)
  MIN_AGE_MINUTES : option (pyres Z);
  (** [get_session()] of [save_weather_data] succeeds ([init_db] re-raises). *)
  session_ok : bool;
  (** [get_session()] of [get_last_weather_record] succeeds. *)
  read_session_ok : bool;
  (** the SELECT of [get_last_weather_record] succeeds. *)
  query_ok : bool;
  (** [datetime.now(timezone.utc)], in microseconds. *)
  now_utc : Z;
  (** [session.commit()] succeeds: the database can be reached and takes
      the INSERT, provided it takes each value (see [db_cast]). *)
  commit_ok : bool;
  (** the value the database stores in a column of the given type for a
      parameter that is not NULL; [None] when it refuses the parameter for
      that column. *)
  db_cast : column_type -> pyval -> option pyval;
  (** the key the sequence of [id] gives to the inserted row. *)
  db_next_id : Z;
  (** [now()] on the database server at the INSERT, in microseconds. *)
  db_now : Z
}.

Definition get_session (ok : bool) : pyres unit :=
  if ok then Ok tt else Raise SQLAlchemyError.

(** The instant of a stored timestamp (a naive one counts as UTC). *)
Definition instant (d : datetime) : Z := wall d - default 0 (utcoffset d).

(** [sorts_before a b]: [a] comes strictly before [b] under
    [ORDER BY created_at DESC]; PostgreSQL puts NULL first there. *)
Definition sorts_before (a b : option datetime) : bool :=
  match a, b with
  | None, Some _ => true
  | Some x, Some y => instant y <? instant x
  | _, None => false
  end.

(** [.order_by(created_at.desc()).first()]: among equal keys the earliest row
    of the table is taken. *)
Fixpoint first_desc (rows : list WeatherData) : option WeatherData :=
  match rows with
  | [] => None
  | r :: rest =>
      match first_desc rest with
      | None => Some r
      | Some r' =>
          if sorts_before (w_created_at r') (w_created_at r) then Some r' else Some r
      end
  end.

Definition get_last_weather_record (city : string) (e : Env) (tbl : Table)
  : pyres (option WeatherData) :=
  _ <~ get_session (read_session_ok e) ;;
  if query_ok e then
    Ok (first_desc (filter (fun r => w_city r = city) tbl))
  else
    (* except Exception: logger.error(...); return None *)
    Ok None.

(** [is_data_fresh(city, min_age_minutes)] returns the tuple
    [(is_fresh, last_record, age_minutes)]. *)
Definition is_data_fresh (city : string) (min_age_minutes : Z) (e : Env) (tbl : Table)
  : pyres (bool * option WeatherData * option Q) :=
  last_record <~ get_last_weather_record city e tbl ;;
  match last_record with
  | None => Ok (false, None, None)
  | Some r =>
      match w_created_at r with
      | None => Ok (false, None, None)
      | Some created =>
          let now := {| wall := now_utc e; utcoffset := Some 0 |} in
          let last_time :=
            match utcoffset created with
            | None => {| wall := wall created; utcoffset := Some 0 |}
            | Some _ => created
            end in
          age_delta <~ datetime_sub now last_time ;;
          let age_minutes := float_div (total_seconds age_delta) 60 in
          let is_fresh := Qltb age_minutes (inject_Z min_age_minutes) in
          Ok (is_fresh, Some r, Some age_minutes)
      end
  end.

(** The f-strings of [save_weather_data], kept structured. *)
Inductive Message : Type :=
| MsgSkipped (city : string) (age_minutes : option Q) (min_age_minutes : Z)
| MsgSaved (city : string)
| MsgError (city : string) (e : exn).

(** The dict returned by [save_weather_data]. *)
Record SaveResult : Type := mkSaveResult {
  saved : bool;
  skipped : bool;
  reason : string;
  age_minutes : option Q;
  message : Message
}.

(** [bool(d)] of that dict: it has these five keys in every branch. *)
Definition keys (d : SaveResult) : list string :=
  ["saved"; "skipped"; "reason"; "age_minutes"; "message"].
Definition truthy (d : SaveResult) : bool := negb (length (keys d) =? 0)%nat.

(** What a column holds after an INSERT of [v]: NULL for [None] where the
    column allows it, otherwise the database's conversion of [v] to the
    type of the column. *)
Definition store (e : Env) (ty : column_type) (nullable : bool) (v : pyval)
  : option pyval :=
  match v with
  | JNull => if nullable then Some JNull else None
  | _ => db_cast e ty v
  end.

(** [session.add(weather); session.commit()]: the row as stored, or [None]
    when the commit raises; then nothing is written.  [temperature] is
    declared [nullable=False].  The key is a str and is stored as it is: it
    is taken to fit its column, String(100). *)
Definition db_insert (e : Env) (weather : WeatherData) : option WeatherData :=
  if commit_ok e then
    match store e SqlFloat false (w_temperature weather),
          store e SqlInteger true (w_humidity weather),
          store e SqlInteger true (w_pressure weather),
          store e (SqlString 200) true (w_description weather),
          store e SqlFloat true (w_wind_speed weather),
          store e SqlInteger true (w_clouds weather) with
    | Some temperature, Some humidity, Some pressure, Some description,
      Some wind_speed, Some clouds =>
        Some {| w_id := w_id weather;
                w_city := w_city weather;
                w_temperature := temperature;
                w_humidity := humidity;
                w_pressure := pressure;
                w_description := description;
                w_wind_speed := wind_speed;
                w_clouds := clouds;
                w_created_at := w_created_at weather |}
    | _, _, _, _, _, _ => None
    end
  else None.

(** The body of the [try] block of [save_weather_data]. *)
Definition save_try (city : string)
    (temperature humidity pressure description wind_speed clouds : pyval)
    (min_age_minutes : Z) (skip_if_fresh : bool) (e : Env) (tbl : Table)
  : pyres (SaveResult * Table) :=
  early <~ (if skip_if_fresh then
              fresh <~ is_data_fresh city min_age_minutes e tbl ;;
              let '(is_fresh, last_record, age) := fresh in
              if (is_fresh : bool) then
                Ok (Some {| saved := false;
                            skipped := true;
                            reason := "skipped_fresh";
                            age_minutes := age;
                            message := MsgSkipped city age min_age_minutes |})
              else Ok None
            else Ok None) ;;
  match early with
  | Some result => Ok (result, tbl)
  | None =>
      rounded <~ Parser.round1 temperature ;;
      (* the object, with the id and the timestamp the database gives it *)
      let weather := {| w_id := db_next_id e;
                        w_city := city;
                        w_temperature := rounded;
                        w_humidity := humidity;
                        w_pressure := pressure;
                        w_description := description;
                        w_wind_speed := wind_speed;
                        w_clouds := clouds;
                        w_created_at :=
                          Some {| wall := db_now e; utcoffset := Some 0 |} |} in
      match db_insert e weather with
      | Some row =>
          Ok ({| saved := true;
                 skipped := false;
                 reason := "saved";
                 age_minutes := None;
                 message := MsgSaved city |}, (tbl ++ [row])%list)
      | None => Raise SQLAlchemyError
      end
  end.

(** Lines 167-168: the threshold in force. *)
Definition resolve_min_age (min_age_minutes : option Z) (e : Env) : pyres Z :=
  match min_age_minutes with
  | Some m => Ok m
  | None => default (Ok 30) (MIN_AGE_MINUTES e)
  end.

(** [save_weather_data(...)]: the result (or the exception that escapes) and
    the table afterwards.  A failed [commit] writes nothing, and
    [session.rollback()] and [session.close()] are taken not to raise.  [min_age_minutes = None] and
    [skip_if_fresh = true] are the defaults of the signature, as are
    [wind_speed = clouds = JNull]. *)
Definition save_weather_data (city : string)
    (temperature humidity pressure description wind_speed clouds : pyval)
    (min_age_minutes : option Z) (skip_if_fresh : bool) (e : Env) (tbl : Table)
  : pyres SaveResult * Table :=
  match (m <~ resolve_min_age min_age_minutes e ;;
         _ <~ get_session (session_ok e) ;;
         Ok m) with
  | Raise x => (Raise x, tbl)
  | Ok m =>
      match save_try city temperature humidity pressure description
                     wind_speed clouds m skip_if_fresh e tbl with
      | Ok (result, tbl') => (Ok result, tbl')
      | Raise x =>
          (* session.rollback() *)
          (Ok {| saved := false;
                 skipped := false;
                 reason := "error";
                 age_minutes := None;
                 message := MsgError city x |}, tbl)
      end
  end.

(** [ORDER BY created_at DESC] of a whole result set, by insertion: a row
    goes behind the rows that sort strictly before it, so rows with equal
    keys keep the order of the table. *)
Fixpoint insert_desc (r : WeatherData) (sorted : list WeatherData)
  : list WeatherData :=
  match sorted with
  | [] => [r]
  | x :: rest =>
      if sorts_before (w_created_at x) (w_created_at r)
      then x :: insert_desc r rest
      else r :: x :: rest
  end.

Fixpoint order_desc (rows : list WeatherData) : list WeatherData :=
  match rows with
  | [] => []
  | r :: rest => insert_desc r (order_desc rest)
  end.

(** [get_recent_weather(limit)].  [read_session_ok] stands for its
    [get_session()], which is outside the [try], and [query_ok] for its
    SELECT; PostgreSQL refuses a negative LIMIT, which the [except] clause
    turns into the empty list like any other failure of the query. *)
Definition get_recent_weather (limit : Z) (e : Env) (tbl : Table)
  : pyres (list WeatherData) :=
  _ <~ get_session (read_session_ok e) ;;
  if query_ok e && (0 <=? limit) then
    Ok (take (Z.to_nat limit) (order_desc tbl))
  else
    (* except Exception: print(...); return [] *)
    Ok [].

(** The part of the database schema [init_db] looks at. *)
Record Schema : Type := mkSchema {
  has_table : bool;   (* the table weather_data *)
  has_index : bool    (* the index idx_weather_data_city_created *)
}.

(** What the database does to the statements of one call of [init_db]. *)
Record InitEnv : Type := mkInitEnv {
  (** [engine.connect()] and the query on information_schema succeed. *)
  connect_ok : bool;
  (** [Base.metadata.create_all(engine)] succeeds. *)
  create_table_ok : bool;
  (** the query on pg_indexes succeeds. *)
  index_query_ok : bool;
  (** the CREATE INDEX statement and its commit succeed. *)
  create_index_ok : bool
}.

(** [init_db()]: [Ok tt] stands for the returned engine; every exception is
    printed and re-raised.  A statement that fails changes nothing. *)
Definition init_db (w : InitEnv) (s : Schema) : pyres unit * Schema :=
  if negb (connect_ok w) then (Raise SQLAlchemyError, s)
  else if negb (has_table s) then
    if negb (create_table_ok w) then (Raise SQLAlchemyError, s)
    else
      let s1 := {| has_table := true; has_index := has_index s |} in
      (* CREATE INDEX IF NOT EXISTS *)
      if negb (create_index_ok w) then (Raise SQLAlchemyError, s1)
      else (Ok tt, {| has_table := true; has_index := true |})
  else
    if negb (index_query_ok w) then (Raise SQLAlchemyError, s)
    else if negb (has_index s) then
      (* CREATE INDEX *)
      if negb (create_index_ok w) then (Raise SQLAlchemyError, s)
      else (Ok tt, {| has_table := has_table s; has_index := true |})
    else (Ok tt, s).

End Database.

(** ** airflow/dags/async_weather_dag.py *)

Module Dag.
Import Py Parser Database.

(** The loop variables of [save_results_to_db], with the table. *)
Record LoopState : Type := mkLoopState {
  saved_count : Z;
  skipped_count : Z;
  table : Table
}.

(** One round of the [for] loop; [e] is what the world does meanwhile. *)
Definition save_one (weather_data : option Observation) (e : Env) (st : LoopState)
  : LoopState :=
  match weather_data with
  | None => st
  | Some d =>
      match save_weather_data (o_city d) (o_temperature d) (o_humidity d)
              (o_pressure d) (o_description d) (o_wind_speed d) (o_clouds d)
              (Some 30) true e (table st) with
      | (Ok result, tbl') =>
          if saved result then
            {| saved_count := saved_count st + 1;
               skipped_count := skipped_count st;
               table := tbl' |}
          else if skipped result then
            {| saved_count := saved_count st;
               skipped_count := skipped_count st + 1;
               table := tbl' |}
          else
            {| saved_count := saved_count st;
               skipped_count := skipped_count st;
               table := tbl' |}
      | (Raise _, tbl') =>
          (* except Exception as e: print(...) *)
          {| saved_count := saved_count st;
             skipped_count := skipped_count st;
             table := tbl' |}
      end
  end.

(** The [for] loop from its [i]-th round on; round [i] runs in [envs i]. *)
Fixpoint save_loop (i : nat) (weather_data_list : list (option Observation))
    (envs : nat -> Env) (st : LoopState) : LoopState :=
  match weather_data_list with
  | [] => st
  | weather_data :: rest =>
      save_loop (S i) rest envs (save_one weather_data (envs i) st)
  end.

(** [save_results_to_db(context)]: [xcom] is what [xcom_pull] returns. The
    value is the returned integer; the counts of the last [print] are those of
    [save_loop]. *)
Definition save_results_to_db (xcom : option (list (option Observation)))
    (envs : nat -> Env) (tbl : Table) : pyres Z * Table :=
  match xcom with
  | None => (Ok 0, tbl)
  | Some [] => (Ok 0, tbl)
  | Some weather_data_list =>
      let st := save_loop 0 weather_data_list envs
                  {| saved_count := 0; skipped_count := 0; table := tbl |} in
      (Ok (saved_count st), table st)
  end.

End Dag.

(** ** celery_worker/tasks.py *)

Module Celery.
Import Py Database.

(** The entries of the payload the task reads; [None] is a missing key. *)
Record Payload : Type := mkPayload {
  p_city : option string;
  p_temperature : option pyval;
  p_humidity : option pyval;
  p_pressure : option pyval;
  p_description : option pyval
}.

Definition item {A : Type} (k : string) (entry : option A) : pyres A :=
  match entry with
  | Some v => Ok v
  | None => Raise (KeyError k)
  end.

(** The dict returned by the task. *)
Inductive TaskResult : Type :=
| StatusCity (status : string) (city : string)
| StatusMessage (status : string) (e : exn).

Definition save_weather_task (weather_data : Payload) (e : Env) (tbl : Table)
  : TaskResult * Table :=
  let args :=
    _ <~ item "city" (p_city weather_data) ;;      (* the first print *)
    city <~ item "city" (p_city weather_data) ;;
    temperature <~ item "temperature" (p_temperature weather_data) ;;
    humidity <~ item "humidity" (p_humidity weather_data) ;;
    pressure <~ item "pressure" (p_pressure weather_data) ;;
    description <~ item "description" (p_description weather_data) ;;
    Ok (city, temperature, humidity, pressure, description) in
  match args with
  | Raise x => (StatusMessage "error" x, tbl)
  | Ok (city, temperature, humidity, pressure, description) =>
      match save_weather_data city temperature humidity pressure description
              JNull JNull None true e tbl with
      | (Ok success, tbl') =>
          if truthy success then (StatusCity "success" city, tbl')
          else (StatusCity "error" city, tbl')
      | (Raise x, tbl') => (StatusMessage "error" x, tbl')
      end
  end.

End Celery.

(** ** airflow/dags/compare_parsers_dag.py *)

Module Compare.
Import Py Parser.

(** An entry of the [results] list of [sync_parse_cities]. *)
Record SyncEntry : Type := mkSyncEntry {
  s_city : string;
  s_temp : pyval
}.

(** The body of the [try] of [sync_parse_cities] for one city: [Some] is the
    entry appended to [results], [None] a city that is only printed. *)
Definition sync_fetch (city : string) (reply : http_reply) : option SyncEntry :=
  match reply with
  | Response status json =>
      if status =? 200 then
        match (data <~ json ;;
               main <~ getitem data "main" ;;
               temp <~ getitem main "temp" ;;
               Ok {| s_city := city; s_temp := temp |}) with
        | Ok entry => Some entry
        | Raise _ => None
        end
      else None
  | TimedOut => None
  | ConnectionFailed => None
  end.

(** The [for] loop of [sync_parse_cities] from its [i]-th city on. *)
Fixpoint sync_loop (i : nat) (cities : list string) (net : nat -> http_reply)
    (results : list SyncEntry) : list SyncEntry :=
  match cities with
  | [] => results
  | city :: rest =>
      match sync_fetch city (net i) with
      | Some entry => sync_loop (S i) rest net (results ++ [entry])%list
      | None => sync_loop (S i) rest net results
      end
  end.

(** The dicts returned by [sync_parse_cities] and [async_parse_cities];
    [elapsed] is the difference of the two readings of [time.time()]. *)
Record Report (A : Type) : Type := mkReport {
  time : Q;
  results : list A
}.
Arguments time {A} _.
Arguments results {A} _.

Definition sync_parse_cities (cities : list string) (net : nat -> http_reply)
    (elapsed : Q) : Report SyncEntry :=
  {| time := elapsed; results := sync_loop 0 cities net [] |}.

Definition async_parse_cities (cities : list string) (net : nat -> http_reply)
    (clock : nat -> Q) (elapsed : Q) : Report Observation :=
  {| time := elapsed; results := fetch_all_cities_async cities net clock |}.

(** The dict returned by [compare_results]. *)
Record Comparison : Type := mkComparison {
  sync_time : Q;
  async_time : Q;
  speedup : Q
}.

Inductive ZeroDivisionError : Type := division_by_zero.

(** [compare_results(context)] on the two reports pulled from XCom.  Float
    division by zero raises. *)
Definition compare_results {A B : Type} (sync_result : Report A)
    (async_result : Report B) : Comparison + ZeroDivisionError :=
  if Database.Qltb 0 (time sync_result) then
    if Qeq_bool (time async_result) 0 then inr division_by_zero
    else inl {| sync_time := time sync_result;
                async_time := time async_result;
                speedup := (time sync_result / time async_result)%Q |}
  else inl {| sync_time := time sync_result;
              async_time := time async_result;
              speedup := 0%Q |}.

End Compare.

(** ** airflow/dags/test_weather_dag.py *)

Module TestDag.
Import Py Database.

(** [show_recent_data()]: the number of rows it printed. *)
Definition show_recent_data (e : Env) (tbl : Table) : pyres Z :=
  recent <~ get_recent_weather 10 e tbl ;;
  Ok (Z.of_nat (length recent)).

End TestDag.

(** ** Vocabulary of the properties, and concrete scenarios *)

Module Scenario.
Import Py Parser Database Dag Celery.

(** The failures of a run of [fetch_all_cities_async]: every key whose task
    returned [None], with the reply it met.  This is the content the
    specification's [failures] mapping would need; the code does not
    compute it. *)
Definition fetch_failures (cities : list string)
    (net : nat -> http_reply) (clock : nat -> Q) : list (string * http_reply) :=
  omap id
    (imap (fun i city =>
             match fetch_city_weather city (net i) (clock i) with
             | None => Some (city, net i)
             | Some _ => None
             end) cities).

(** A success payload whose [wind] and [clouds] objects are empty. *)
Definition payload_without_speed_and_all : pyval :=
  JObj (<["main" := JObj (<["temp" := JFloat (Qmake 2155 100)]>
                         (<["humidity" := JInt 40]>
                         (<["pressure" := JInt 1013]> ∅)))]>
       (<["weather" := JArr [JObj (<["description" := JStr "clear sky"]> ∅)]]>
       (<["wind" := JObj ∅]>
       (<["clouds" := JObj ∅]> ∅)))).

(** The age in minutes, at the gate's reading of the clock, of a row
    created at [created]. *)
Definition record_age (e : Env) (created : datetime) : Q :=
  float_div (total_seconds (now_utc e - instant created)) 60.

(** The row handed to the database by lines 188-196, with the id and the
    timestamp the database gives it. *)
Definition inserted_row (city : string)
    (rounded humidity pressure description wind_speed clouds : pyval) (e : Env)
  : WeatherData :=
  {| w_id := db_next_id e; w_city := city; w_temperature := rounded;
     w_humidity := humidity; w_pressure := pressure;
     w_description := description; w_wind_speed := wind_speed;
     w_clouds := clouds;
     w_created_at := Some {| wall := db_now e; utcoffset := Some 0 |} |}.

(** [row] is what the database holds for the object [weather]: the id, the
    key and the timestamp as assigned, every other column the database's
    conversion of the attribute to the type of the column, NULL for [None]. *)
Definition stored_as (e : Env) (weather row : WeatherData) : Prop :=
  w_id row = w_id weather /\ w_city row = w_city weather /\
  w_created_at row = w_created_at weather /\
  store e SqlFloat false (w_temperature weather) = Some (w_temperature row) /\
  store e SqlInteger true (w_humidity weather) = Some (w_humidity row) /\
  store e SqlInteger true (w_pressure weather) = Some (w_pressure row) /\
  store e (SqlString 200) true (w_description weather) = Some (w_description row) /\
  store e SqlFloat true (w_wind_speed weather) = Some (w_wind_speed row) /\
  store e SqlInteger true (w_clouds weather) = Some (w_clouds row).

(** The [error] result of [save_weather_data]. *)
Definition error_result (city : string) (x : exn) : SaveResult :=
  {| saved := false; skipped := false; reason := "error";
     age_minutes := None; message := MsgError city x |}.

(** What an attempt to insert comes to: the temperature is rounded, the row
    handed to the database and, when the database takes it, appended as
    stored and reported [saved]; a temperature that cannot be rounded or a
    refused row gives the [error] result and leaves the table alone. *)
Definition insert_attempt (city : string)
    (temperature humidity pressure description wind_speed clouds : pyval)
    (e : Env) (tbl : Table) : pyres SaveResult * Table :=
  match round1 temperature with
  | Raise x => (Ok (error_result city x), tbl)
  | Ok rounded =>
      match db_insert e (inserted_row city rounded humidity pressure
                           description wind_speed clouds e) with
      | Some row =>
          (Ok {| saved := true; skipped := false; reason := "saved";
                 age_minutes := None; message := MsgSaved city |},
           (tbl ++ [row])%list)
      | None => (Ok (error_result city SQLAlchemyError), tbl)
      end
  end.

(** ACCEPT: with the gate on, [save_weather_data] does what it does with the
    gate switched off ([skip_if_fresh=False]), and that is the attempt to
    insert: once the threshold is resolved and the session open, the call is
    not skipped, it returns what [insert_attempt] describes. *)
Definition gate_accepts (city : string) (min_age_minutes : option Z)
    (e : Env) (tbl : Table) : Prop :=
  forall temperature humidity pressure description wind_speed clouds,
    save_weather_data city temperature humidity pressure description
      wind_speed clouds min_age_minutes true e tbl
    = save_weather_data city temperature humidity pressure description
        wind_speed clouds min_age_minutes false e tbl
    /\
    save_weather_data city temperature humidity pressure description
      wind_speed clouds min_age_minutes true e tbl
    = match resolve_min_age min_age_minutes e, get_session (session_ok e) with
      | Ok _, Ok _ =>
          insert_attempt city temperature humidity pressure description
            wind_speed clouds e tbl
      | Raise x, _ => (Raise x, tbl)
      | Ok _, Raise x => (Raise x, tbl)
      end.

(** SKIP with age [a]: [save_weather_data] returns the [skipped_fresh] result
    carrying [a] and leaves the table as it was. *)
Definition gate_skips (city : string) (min_age_minutes : option Z)
    (e : Env) (tbl : Table) (a : Q) : Prop :=
  forall temperature humidity pressure description wind_speed clouds,
  exists msg,
    save_weather_data city temperature humidity pressure description
      wind_speed clouds min_age_minutes true e tbl
    = (Ok {| saved := false; skipped := true; reason := "skipped_fresh";
             age_minutes := Some a; message := msg |}, tbl).

(** One minute, in microseconds. *)
Definition minute : Z := 60000000.

(** Rounding to the nearest integer, ties away from zero. *)
Definition round_half_away (q : Q) : Z :=
  let n := Qnum q in
  let d := Z.pos (Qden q) in
  if 0 <=? n then (2 * n + d) / (2 * d) else - ((2 * - n + d) / (2 * d)).

Definition int4 (n : Z) : option pyval :=
  if (-2147483648 <=? n) && (n <=? 2147483647) then Some (JInt n) else None.

(** The conversions of the database of the scenarios.  They are what
    PostgreSQL does with the values the pipeline handles: an int or a float
    in an Integer column (a float is rounded, ties away from zero, and the
    result must fit 32 bits), an int or a float in a Float column, a str
    that is short enough in a String column.  Every other parameter is
    refused here (PostgreSQL itself takes some of them, such as a str that
    spells a number). *)
Definition pg_cast (ty : column_type) (v : pyval) : option pyval :=
  match ty, v with
  | SqlInteger, JInt n => int4 n
  | SqlInteger, JFloat q => int4 (round_half_away q)
  | SqlFloat, JInt n => Some (JFloat (to_double (inject_Z n)))
  | SqlFloat, JFloat q => Some (JFloat q)
  | SqlString n, JStr s => if (String.length s <=? n)%nat then Some (JStr s) else None
  | _, _ => None
  end.

(** A world in which everything works, the clocks showing [now]. *)
Definition env_ok (now : Z) : Env :=
  {| MIN_AGE_MINUTES := None; session_ok := true; read_session_ok := true;
     query_ok := true; now_utc := now; commit_ok := true; db_cast := pg_cast;
     db_next_id := 2; db_now := now |}.

(** The same world, except that the SELECT of the last record fails. *)
Definition env_query_fails (now : Z) : Env :=
  {| MIN_AGE_MINUTES := None; session_ok := true; read_session_ok := true;
     query_ok := false; now_utc := now; commit_ok := true; db_cast := pg_cast;
     db_next_id := 2; db_now := now |}.

(** The same world, except that the INSERT is refused. *)
Definition env_commit_fails (now : Z) : Env :=
  {| MIN_AGE_MINUTES := None; session_ok := true; read_session_ok := true;
     query_ok := true; now_utc := now; commit_ok := false; db_cast := pg_cast;
     db_next_id := 2; db_now := now |}.

(** A stored row for Moscow with the given [created_at]. *)
Definition moscow_row (created : option datetime) : WeatherData :=
  {| w_id := 1; w_city := "Moscow,ru"; w_temperature := JFloat (Qmake 215 10);
     w_humidity := JInt 40; w_pressure := JInt 1013;
     w_description := JStr "clear sky"; w_wind_speed := JInt 0;
     w_clouds := JInt 0; w_created_at := created |}.

Definition at_epoch : datetime := {| wall := 0; utcoffset := Some 0 |}.

(** The start of the loop of [save_results_to_db] on table [tbl]. *)
Definition initial (tbl : Table) : LoopState :=
  {| saved_count := 0; skipped_count := 0; table := tbl |}.

(** An observation fetched for Moscow. *)
Definition moscow_obs : Observation :=
  {| o_city := "Moscow,ru"; o_temperature := JFloat (Qmake 215 10);
     o_humidity := JInt 40; o_pressure := JInt 1013;
     o_description := JStr "clear sky"; o_wind_speed := JInt 0;
     o_clouds := JInt 0; o_timestamp := 0%Q |}.

(** [a] is at least as recent as [b]: [b] does not sort strictly before [a]. *)
Definition not_older (a b : WeatherData) : Prop :=
  sorts_before (w_created_at b) (w_created_at a) = false.

(** The world [e] with the environment variable MIN_AGE_MINUTES replaced. *)
Definition set_MIN_AGE_MINUTES (v : option (pyres Z)) (e : Env) : Env :=
  {| MIN_AGE_MINUTES := v; session_ok := session_ok e;
     read_session_ok := read_session_ok e; query_ok := query_ok e;
     now_utc := now_utc e; commit_ok := commit_ok e; db_cast := db_cast e;
     db_next_id := db_next_id e; db_now := db_now e |}.

End Scenario.

(** * Properties *)

Import Py Parser Database Dag Celery Scenario.
Import Compare TestDag.

(** ** The error monad *)

Lemma bind_Ok {A B : Type} (x : pyres A) (f : A -> pyres B) (b : B) :
  bind x f = Ok b -> exists a, x = Ok a /\ f a = Ok b.
Proof. destruct x as [a|e]; simpl; [eauto | discriminate]. Qed.

Lemma bind_Raise {A B : Type} (x : pyres A) (f : A -> pyres B) (e : exn) :
  x = Raise e -> bind x f = Raise e.
Proof. now intros ->. Qed.

(** Peel the leading binds off a hypothesis [bind .. = Ok _]. *)
Ltac bind_inv H :=
  repeat (let a := fresh "v" in
          let Ha := fresh "Hv" in
          apply bind_Ok in H as (a & Ha & H)).

Lemma get_dict (v : pyval) (k : string) (dflt x : pyval) :
  get v k dflt = Ok x -> exists m, v = JObj m /\ x = default dflt (m !! k).
Proof. destruct v; simpl; try discriminate. intros [= <-]. eauto. Qed.

(** ** The Data Source Client: [fetch_city_weather] *)

Lemma build_observation_city (city : string) (data : pyval) (t : Q) (d : Observation) :
  build_observation city data t = Ok d -> o_city d = city.
Proof.
  unfold build_observation. intros H. bind_inv H. now injection H as <-.
Qed.

Lemma build_observation_optional (city : string) (data : pyval) (t : Q) (d : Observation) :
  build_observation city data t = Ok d ->
  exists wind clouds,
    getitem data "wind" = Ok (JObj wind) /\
    getitem data "clouds" = Ok (JObj clouds) /\
    o_wind_speed d = default (JInt 0) (wind !! "speed") /\
    o_clouds d = default (JInt 0) (clouds !! "all").
Proof.
  unfold build_observation. intros H. bind_inv H.
  repeat match goal with
         | G : get _ _ _ = Ok _ |- _ => apply get_dict in G as (? & -> & ->)
         end.
  injection H as <-. simpl. eauto 10.
Qed.

Lemma fetch_city_weather_Some (city : string) (reply : http_reply) (t : Q) (d : Observation) :
  fetch_city_weather city reply t = Some d ->
  exists data, reply = Response 200 (Ok data) /\ build_observation city data t = Ok d.
Proof.
  unfold fetch_city_weather. destruct reply as [| |status json]; try discriminate.
  destruct (Z.eqb_spec status 200) as [->|_].
  - destruct json as [data|e]; simpl; [|discriminate].
    destruct (build_observation city data t) eqn:Hb; [|discriminate].
    intros [= <-]. eauto.
  - now destruct (status =? 401).
Qed.

Lemma fetch_city_weather_city (city : string) (reply : http_reply) (t : Q) (d : Observation) :
  fetch_city_weather city reply t = Some d -> o_city d = city.
Proof.
  intros (data & _ & Hb)%fetch_city_weather_Some.
  eauto using build_observation_city.
Qed.

Example fetch_unauthorized :
  fetch_city_weather "Moscow,ru" (Response 401 (Raise JSONDecodeError)) 0 = None.
Proof. reflexivity. Qed.

Example fetch_timed_out : fetch_city_weather "Moscow,ru" TimedOut 0 = None.
Proof. reflexivity. Qed.

(** Without a [wind] object the lookup [data['wind']] raises and the fetch
    fails as a whole. *)
Example fetch_without_wind_object :
  fetch_city_weather "Moscow,ru"
    (Response 200 (Ok (JObj (<["main" := JObj (<["temp" := JInt 21]>
                                               (<["humidity" := JInt 40]>
                                               (<["pressure" := JInt 1013]> ∅)))]>
                            (<["weather" := JArr [JObj (<["description" := JStr "clear sky"]> ∅)]]>
                            (<["clouds" := JObj ∅]> ∅)))))) 0
  = None.
Proof. vm_compute. reflexivity. Qed.

(** C2, counterexample.  On a 200 reply whose [wind] object has no [speed]
    and whose [clouds] object has no [all], the observation returned by
    [fetch_city_weather] carries the integer 0 in both fields, not [None]:
    the missing fields are not represented as absent. *)
Lemma missing_optional_fields_are_zero :
  exists d,
    fetch_city_weather "Moscow,ru" (Response 200 (Ok payload_without_speed_and_all)) 0
      = Some d /\
    o_wind_speed d = JInt 0 /\ o_clouds d = JInt 0 /\
    o_wind_speed d <> JNull /\ o_clouds d <> JNull.
Proof.
  eexists. split; [vm_compute; reflexivity|]. simpl. repeat split; discriminate.
Qed.

(** C2, amended.  Whenever [fetch_city_weather] returns an observation, the
    payload has a [wind] and a [clouds] object, and the observation's
    [wind_speed] (resp. [clouds]) is the payload's [wind.speed] (resp.
    [clouds.all]) if present and the integer 0 if it is missing. *)
Theorem optional_fields_default_to_zero
    (city : string) (reply : http_reply) (t : Q) (d : Observation) :
  fetch_city_weather city reply t = Some d ->
  exists data wind clouds,
    reply = Response 200 (Ok data) /\
    getitem data "wind" = Ok (JObj wind) /\
    getitem data "clouds" = Ok (JObj clouds) /\
    o_wind_speed d = default (JInt 0) (wind !! "speed") /\
    o_clouds d = default (JInt 0) (clouds !! "all") /\
    (wind !! "speed" = None -> o_wind_speed d = JInt 0) /\
    (clouds !! "all" = None -> o_clouds d = JInt 0).
Proof.
  intros (data & -> & Hb)%fetch_city_weather_Some.
  destruct (build_observation_optional _ _ _ _ Hb) as (wind & clouds & Hw & Hc & Hs & Ha).
  exists data, wind, clouds. repeat split; try assumption.
  - intros E. now rewrite Hs, E.
  - intros E. now rewrite Ha, E.
Qed.

Lemma optional_fields_default_to_zero_witness :
  exists d,
    fetch_city_weather "Moscow,ru" (Response 200 (Ok payload_without_speed_and_all)) 0
      = Some d /\
    exists data wind clouds,
      Response 200 (Ok payload_without_speed_and_all) = Response 200 (Ok data) /\
      getitem data "wind" = Ok (JObj wind) /\
      getitem data "clouds" = Ok (JObj clouds) /\
      o_wind_speed d = default (JInt 0) (wind !! "speed") /\
      o_clouds d = default (JInt 0) (clouds !! "all") /\
      (wind !! "speed" = None -> o_wind_speed d = JInt 0) /\
      (clouds !! "all" = None -> o_clouds d = JInt 0).
Proof.
  eexists. split; [vm_compute; reflexivity|].
  apply (optional_fields_default_to_zero "Moscow,ru" _ 0). vm_compute; reflexivity.
Defined.

(** ** The Fetch Orchestrator: [fetch_all_cities_async] *)

Lemma collect_spec (tasks : list (option Observation)) (acc : list Observation) :
  collect (Returned <$> tasks) acc = (acc ++ omap id tasks)%list.
Proof.
  revert acc. induction tasks as [|[d|] tasks IH]; intros acc; simpl.
  - now rewrite app_nil_r.
  - rewrite IH. now rewrite <- app_assoc.
  - apply IH.
Qed.

(** C3, counterexample.  For the one-key input ["Moscow,ru"], no function of
    the value returned by [fetch_all_cities_async] yields the failures of
    the run: a timed-out request and a 401 reply both return the empty
    list. *)
Lemma failures_not_in_return_value :
  ~ exists decode : list Observation -> list (string * http_reply),
      forall net clock,
        decode (fetch_all_cities_async ["Moscow,ru"] net clock)
        = fetch_failures ["Moscow,ru"] net clock.
Proof.
  intros [decode H].
  pose proof (H (fun _ => TimedOut) (fun _ => 0%Q)) as H1.
  pose proof (H (fun _ => Response 401 (Raise JSONDecodeError)) (fun _ => 0%Q)) as H2.
  vm_compute in H1, H2. congruence.
Qed.

(** C3, amended.  [fetch_all_cities_async] returns only the sequence of
    successful observations: those of the tasks that returned a dict, in the
    order of the input keys, each carrying its own key; a failed key
    contributes nothing and no failure mapping is returned. *)
Theorem fetch_all_returns_successes_only
    (cities : list string) (net : nat -> http_reply) (clock : nat -> Q) :
  fetch_all_cities_async cities net clock
    = omap id (imap (fun i city => fetch_city_weather city (net i) (clock i)) cities)
  /\ (forall d, d ∈ fetch_all_cities_async cities net clock ->
        exists i, cities !! i = Some (o_city d) /\
                  fetch_city_weather (o_city d) (net i) (clock i) = Some d)
  /\ ((forall i city, cities !! i = Some city ->
         fetch_city_weather city (net i) (clock i) = None) ->
      fetch_all_cities_async cities net clock = []).
Proof.
  assert (E : fetch_all_cities_async cities net clock
    = omap id (imap (fun i city => fetch_city_weather city (net i) (clock i)) cities)).
  { unfold fetch_all_cities_async. now rewrite collect_spec. }
  split; [exact E|]. rewrite E. split.
  - intros d (o & Ho & Hd)%list_elem_of_omap. simpl in Hd. subst o.
    apply list_elem_of_lookup in Ho as [i Hi].
    rewrite list_lookup_imap in Hi.
    destruct (cities !! i) as [city|] eqn:Hc; simpl in Hi; [|discriminate].
    injection Hi as Hi. exists i.
    rewrite (fetch_city_weather_city _ _ _ _ Hi). auto.
  - intros Hall.
    destruct (omap id _) as [|d rest] eqn:Hr; [reflexivity|].
    assert (Hd : d ∈ omap id
      (imap (fun i city => fetch_city_weather city (net i) (clock i)) cities)).
    { rewrite Hr. left. }
    apply list_elem_of_omap in Hd as (o & Ho & Hd). simpl in Hd. subst o.
    apply list_elem_of_lookup in Ho as [i Hi].
    rewrite list_lookup_imap in Hi.
    destruct (cities !! i) as [city|] eqn:Hc; simpl in Hi; [|discriminate].
    injection Hi as Hi. rewrite (Hall i city Hc) in Hi. discriminate.
Qed.

(** ** The Freshness Gate: [is_data_fresh] and [save_weather_data] *)

Lemma Qltb_lt (a b : Q) : Qltb a b = true <-> (a < b)%Q.
Proof.
  unfold Qltb. rewrite Qlt_alt. destruct (a ?= b)%Q; split; congruence.
Qed.

Lemma Qltb_ge (a b : Q) : Qltb a b = false <-> (b <= a)%Q.
Proof.
  rewrite <- not_true_iff_false, Qltb_lt. split.
  - apply Qnot_lt_le.
  - intros H1 H2. exact (Qlt_not_le _ _ H2 H1).
Qed.

(** *** Rounding to the nearest double *)

Lemma round_half_even_bounds (x : Q) :
  (x - (1 # 2) <= inject_Z (round_half_even x) <= x + (1 # 2))%Q.
Proof.
  destruct x as [n d]. unfold round_half_even. cbn [Qnum Qden].
  pose proof (Z.div_mod n (Z.pos d) ltac:(lia)) as Hdm.
  pose proof (Z.mod_pos_bound n (Z.pos d) ltac:(lia)) as Hr.
  set (f := n / Z.pos d) in *. set (r := n mod Z.pos d) in *.
  unfold Qle, Qminus, Qplus, Qopp, inject_Z. cbn [Qnum Qden].
  destruct (Z.compare_spec (2 * r) (Z.pos d)) as [E|E|E];
    [destruct (Z.even f)| |]; split; nia.
Qed.

Lemma binade_le (q : Q) : (0 < q)%Q -> ((2 ^ binade q)%Q <= q)%Q.
Proof.
  intros Hq. unfold binade.
  set (k := Z.log2 (Qnum q) - Z.log2 (Z.pos (Qden q))).
  destruct (Qltb q (2 ^ k)%Q) eqn:E; [|now apply Qltb_ge].
  clear E.
  destruct q as [n d]. unfold Qlt in Hq. cbn in Hq. cbn [Qnum Qden] in k.
  assert (Hn : 0 < n) by lia.
  pose proof (Z.log2_spec n Hn) as [Hn1 _].
  pose proof (Z.log2_spec (Z.pos d) ltac:(lia)) as [_ Hd2].
  pose proof (Z.log2_nonneg n) as Hln.
  pose proof (Z.log2_nonneg (Z.pos d)) as Hld.
  replace (k - 1) with (Z.log2 n + - Z.succ (Z.log2 (Z.pos d))) by (unfold k; lia).
  rewrite Qpower_plus by discriminate.
  rewrite Qpower_opp.
  rewrite <- !(Zpower_Qpower 2) by lia.
  set (a := 2 ^ Z.log2 n) in *. set (b := 2 ^ Z.succ (Z.log2 (Z.pos d))) in *.
  assert (Ha : 0 < a) by (apply Z.pow_pos_nonneg; lia).
  assert (Hb : 0 < b) by (apply Z.pow_pos_nonneg; lia).
  apply Qle_shift_div_r; [unfold Qlt; simpl; lia|].
  unfold Qle, Qmult, inject_Z. cbn [Qnum Qden]. nia.
Qed.

(** A positive rational rounds to a positive double that exceeds it by at
    most one part in [2 ^ 53]. *)
Lemma to_double_pos_bounds (q : Q) :
  (0 < q)%Q ->
  (0 < to_double_pos q)%Q /\
  (to_double_pos q <= q * (1 + (1 # 9007199254740992)))%Q.
Proof.
  intros Hq. unfold to_double_pos.
  pose proof (binade_le q Hq) as Hb.
  set (e := binade q - 52) in *.
  replace (binade q) with (52 + e) in Hb by (unfold e; lia).
  rewrite Qpower_plus in Hb by discriminate.
  assert (HP : (0 < 2 ^ e)%Q) by (apply Qpower_0_lt; reflexivity).
  set (P := (2 ^ e)%Q) in *.
  assert (Hx : (2 ^ 52 <= q / P)%Q) by (apply Qle_shift_div_l; assumption).
  pose proof (round_half_even_bounds (q / P)) as [Hlo Hhi].
  set (M := inject_Z (round_half_even (q / P))) in *.
  assert (HxP : (q / P * P == q)%Q).
  { unfold Qdiv. rewrite <- Qmult_assoc, (Qmult_comm (/ P)), Qmult_inv_r.
    - apply Qmult_1_r.
    - intros E. rewrite E in HP. discriminate. }
  set (x := (q / P)%Q) in *.
  assert (H52 : (2 ^ 52 == 4503599627370496)%Q) by reflexivity.
  rewrite H52 in Hx, Hb.
  assert (HM : (0 < M)%Q) by lra.
  split.
  - apply Qmult_lt_0_compat; assumption.
  - assert (H1 : (M * P <= (x + (1 # 2)) * P)%Q).
    { apply Qmult_le_compat_r; [assumption | lra]. }
    lra.
Qed.

Lemma to_double_sign (q : Q) :
  ((q < 0)%Q -> (to_double q < 0)%Q) /\
  ((0 <= q)%Q -> (0 <= to_double q)%Q) /\
  ((0 < q)%Q ->
     (0 < to_double q)%Q /\
     (to_double q <= q * (1 + (1 # 9007199254740992)))%Q).
Proof.
  unfold to_double.
  destruct (Z.compare_spec (Qnum q) 0) as [E|E|E].
  - assert (q == 0)%Q by (unfold Qeq; simpl; lia).
    repeat split; intros; lra.
  - assert (Hq : (q < 0)%Q) by (unfold Qlt; simpl; lia).
    assert (Hq' : (0 < - q)%Q) by lra.
    destruct (to_double_pos_bounds (- q) Hq') as [Hp _].
    repeat split; intros; lra.
  - assert (Hq : (0 < q)%Q) by (unfold Qlt; simpl; lia).
    destruct (to_double_pos_bounds q Hq) as [Hp Hb].
    repeat split; intros; lra.
Qed.

(** The age in minutes, as [is_data_fresh] measures it, has the sign of the
    difference of the two instants. *)
Lemma measured_age_sign (delta : Z) :
  (delta < 0 -> (float_div (total_seconds delta) 60 < 0)%Q) /\
  (0 <= delta -> (0 <= float_div (total_seconds delta) 60)%Q).
Proof.
  unfold float_div, total_seconds. set (q1 := Qmake delta 1000000).
  split; intros H.
  - assert (H1 : (q1 < 0)%Q) by (unfold q1, Qlt; simpl; lia).
    apply (proj1 (to_double_sign q1)) in H1.
    apply (proj1 (to_double_sign _)).
    unfold Qdiv. change (/ 60)%Q with (1 # 60)%Q. lra.
  - assert (H1 : (0 <= q1)%Q) by (unfold q1, Qle; simpl; lia).
    apply (proj1 (proj2 (to_double_sign q1))) in H1.
    apply (proj1 (proj2 (to_double_sign _))).
    unfold Qdiv. change (/ 60)%Q with (1 # 60)%Q. lra.
Qed.

(** For thresholds up to fifty million minutes, a difference below the
    threshold is measured below it: the two roundings cannot lift the age to
    the threshold. *)
Lemma measured_age_below (delta m : Z) :
  0 <= m <= 50000000 -> delta < m * minute ->
  Qltb (float_div (total_seconds delta) 60) (inject_Z m) = true.
Proof.
  intros Hm Hd. apply Qltb_lt. unfold minute in Hd.
  assert (Hm' : (0 <= inject_Z m)%Q) by (unfold Qle; simpl; lia).
  destruct (Z.lt_ge_cases 0 delta) as [Hpos|Hneg].
  - unfold float_div, total_seconds. set (q1 := Qmake delta 1000000).
    assert (Hq1 : (0 < q1)%Q) by (unfold q1, Qlt; simpl; lia).
    destruct (proj2 (proj2 (to_double_sign q1)) Hq1) as [Hf1 Hb1].
    set (f1 := to_double q1) in *.
    assert (Hq2 : (0 < f1 / 60)%Q).
    { unfold Qdiv. change (/ 60)%Q with (1 # 60)%Q. lra. }
    destruct (proj2 (proj2 (to_double_sign _)) Hq2) as [_ Hb2].
    unfold Qdiv in Hb2 |- *.
    change (/ 60)%Q with (1 # 60)%Q in Hb2 |- *.
    assert (Hq1' : (q1 * 1000000 <= inject_Z m * 60000000 - 1)%Q).
    { unfold q1, Qle, Qmult, Qminus, Qplus, Qopp, inject_Z. simpl. lia. }
    assert (Hm'' : (inject_Z m <= 50000000)%Q) by (unfold Qle; simpl; lia).
    lra.
  - destruct (Z.eq_dec delta 0) as [->|Hne].
    + assert (0 < m) by lia. unfold Qlt. simpl. lia.
    + apply Qlt_le_trans with 0%Q; [|assumption].
      apply (proj1 (measured_age_sign delta)). lia.
Qed.

(** Beyond that range the rounding shows: with a threshold of 286335343
    minutes, a difference one microsecond short of the threshold is measured
    as exactly 286335343.0 minutes, which is not below the threshold. *)
Example measured_age_at_a_large_threshold :
  17180120579999999 < 286335343 * minute /\
  (float_div (total_seconds 17180120579999999) 60 == inject_Z 286335343)%Q /\
  Qltb (float_div (total_seconds 17180120579999999) 60) (inject_Z 286335343) = false.
Proof. vm_compute. repeat split; congruence. Qed.

Lemma get_last_weather_record_Some (city : string) (e : Env) (tbl : Table) (r : WeatherData) :
  get_last_weather_record city e tbl = Ok (Some r) ->
  read_session_ok e = true /\ query_ok e = true /\
  first_desc (filter (fun r => w_city r = city) tbl) = Some r.
Proof.
  unfold get_last_weather_record, get_session.
  destruct (read_session_ok e); simpl; [|discriminate].
  destruct (query_ok e); [|discriminate]. now intros [= ->].
Qed.

Lemma is_data_fresh_no_record (city : string) (m : Z) (e : Env) (tbl : Table) :
  read_session_ok e = true ->
  filter (fun r => w_city r = city) tbl = [] ->
  is_data_fresh city m e tbl = Ok (false, None, None).
Proof.
  intros Hs Hf. unfold is_data_fresh, get_last_weather_record, get_session.
  rewrite Hs, Hf. simpl. now destruct (query_ok e).
Qed.

Lemma is_data_fresh_record
    (city : string) (m : Z) (e : Env) (tbl : Table) (r : WeatherData) (created : datetime) :
  get_last_weather_record city e tbl = Ok (Some r) ->
  w_created_at r = Some created ->
  is_data_fresh city m e tbl
  = Ok (Qltb (record_age e created) (inject_Z m), Some r, Some (record_age e created)).
Proof.
  intros Hl Hc. unfold is_data_fresh. rewrite Hl. simpl. rewrite Hc.
  unfold record_age, instant, datetime_sub.
  destruct created as [w [o|]]; simpl.
  - now replace (now_utc e - 0 - (w - o)) with (now_utc e - (w - o)) by lia.
  - now replace (now_utc e - 0 - (w - 0)) with (now_utc e - (w - 0)) by lia.
Qed.

(** When [is_data_fresh] answers "not fresh", the gate lets the call through. *)
Lemma not_fresh_accepts (city : string) (min_age_minutes : option Z) (m : Z)
    (e : Env) (tbl : Table) (last : option WeatherData) (a : option Q) :
  resolve_min_age min_age_minutes e = Ok m ->
  is_data_fresh city m e tbl = Ok (false, last, a) ->
  gate_accepts city min_age_minutes e tbl.
Proof.
  intros Hm Hf t h p d ws cl. unfold save_weather_data. rewrite Hm. simpl.
  destruct (get_session (session_ok e)) as [[]|x]; simpl; [|split; reflexivity].
  unfold save_try. rewrite Hf. simpl. split; [reflexivity|].
  unfold insert_attempt, inserted_row, error_result.
  destruct (round1 t) as [rounded|x]; simpl; [|reflexivity].
  now destruct (db_insert e _).
Qed.

Lemma fresh_skips (city : string) (min_age_minutes : option Z) (m : Z)
    (e : Env) (tbl : Table) (last : option WeatherData) (a : Q) :
  resolve_min_age min_age_minutes e = Ok m ->
  session_ok e = true ->
  is_data_fresh city m e tbl = Ok (true, last, Some a) ->
  gate_skips city min_age_minutes e tbl a.
Proof.
  intros Hm Hs Hf t h p d ws cl. unfold save_weather_data. rewrite Hm, Hs. simpl.
  unfold save_try. rewrite Hf. simpl. eauto.
Qed.

Create HintDb gate.
#[local] Hint Resolve not_fresh_accepts fresh_skips : gate.

(** C1.  With the store reachable: if no row is stored for the key, the gate
    ACCEPTs; if the most recent row of the key has age [a], the age in
    minutes as the code measures it in doubles, the gate SKIPs carrying [a]
    when [a < min_age_minutes] and ACCEPTs when [a >= min_age_minutes].
    ACCEPT says that the call is not skipped but goes through the insert,
    SKIP that it returns the [skipped_fresh] result and writes nothing. *)
Theorem freshness_gate_decides
    (city : string) (min_age_minutes : option Z) (m : Z) (e : Env) (tbl : Table) :
  resolve_min_age min_age_minutes e = Ok m ->
  session_ok e = true ->
  read_session_ok e = true ->
  (filter (fun r => w_city r = city) tbl = [] ->
     is_data_fresh city m e tbl = Ok (false, None, None) /\
     gate_accepts city min_age_minutes e tbl)
  /\
  (forall r created,
     get_last_weather_record city e tbl = Ok (Some r) ->
     w_created_at r = Some created ->
     ((record_age e created < inject_Z m)%Q ->
        is_data_fresh city m e tbl = Ok (true, Some r, Some (record_age e created)) /\
        gate_skips city min_age_minutes e tbl (record_age e created))
     /\
     ((inject_Z m <= record_age e created)%Q ->
        is_data_fresh city m e tbl = Ok (false, Some r, Some (record_age e created)) /\
        gate_accepts city min_age_minutes e tbl)).
Proof.
  intros Hm Hs Hr. split.
  - intros Hnone.
    pose proof (is_data_fresh_no_record city m e tbl Hr Hnone) as Hf.
    split; eauto with gate.
  - intros r created Hl Hc.
    pose proof (is_data_fresh_record city m e tbl r created Hl Hc) as Hf.
    split; intros Ha.
    + apply Qltb_lt in Ha. rewrite Ha in Hf. split; eauto with gate.
    + apply Qltb_ge in Ha. rewrite Ha in Hf. split; eauto with gate.
Qed.

Lemma freshness_gate_decides_witness :
  gate_accepts "Moscow,ru" None (env_ok (10 * minute)) []
  /\ gate_skips "Moscow,ru" None (env_ok (10 * minute)) [moscow_row (Some at_epoch)]
       (record_age (env_ok (10 * minute)) at_epoch)
  /\ gate_accepts "Moscow,ru" None (env_ok (30 * minute)) [moscow_row (Some at_epoch)].
Proof.
  split; [|split].
  - refine (proj2 (proj1 (freshness_gate_decides "Moscow,ru" None 30
              (env_ok (10 * minute)) [] eq_refl eq_refl eq_refl) eq_refl)).
  - refine (proj2 (proj1 (proj2 (freshness_gate_decides "Moscow,ru" None 30
              (env_ok (10 * minute)) [moscow_row (Some at_epoch)]
              eq_refl eq_refl eq_refl) _ at_epoch eq_refl eq_refl) _)).
    vm_compute. reflexivity.
  - refine (proj2 (proj2 (proj2 (freshness_gate_decides "Moscow,ru" None 30
              (env_ok (30 * minute)) [moscow_row (Some at_epoch)]
              eq_refl eq_refl eq_refl) _ at_epoch eq_refl eq_refl) _)).
    vm_compute. discriminate.
Defined.

(** C9.  When the most recent row of the key has no [created_at],
    [is_data_fresh] returns [(False, None, None)], which is what it returns
    on any table holding no row of the key; the gate ACCEPTs, and neither the
    row nor an age reaches the caller. *)
Theorem null_created_at_counts_as_no_record
    (city : string) (min_age_minutes : option Z) (m : Z) (e : Env) (tbl : Table)
    (r : WeatherData) :
  resolve_min_age min_age_minutes e = Ok m ->
  get_last_weather_record city e tbl = Ok (Some r) ->
  w_created_at r = None ->
  is_data_fresh city m e tbl = Ok (false, None, None)
  /\ (forall tbl0, filter (fun r => w_city r = city) tbl0 = [] ->
        is_data_fresh city m e tbl = is_data_fresh city m e tbl0)
  /\ gate_accepts city min_age_minutes e tbl.
Proof.
  intros Hm Hl Hc.
  assert (Hf : is_data_fresh city m e tbl = Ok (false, None, None)).
  { unfold is_data_fresh. rewrite Hl. simpl. now rewrite Hc. }
  apply get_last_weather_record_Some in Hl as (Hs & _ & _).
  split; [exact Hf|]. split.
  - intros tbl0 H0. now rewrite Hf, is_data_fresh_no_record.
  - eapply not_fresh_accepts; eauto.
Qed.

Lemma null_created_at_counts_as_no_record_witness :
  is_data_fresh "Moscow,ru" 30 (env_ok minute) [moscow_row None] = Ok (false, None, None)
  /\ (forall tbl0, filter (fun r => w_city r = "Moscow,ru") tbl0 = [] ->
        is_data_fresh "Moscow,ru" 30 (env_ok minute) [moscow_row None]
        = is_data_fresh "Moscow,ru" 30 (env_ok minute) tbl0)
  /\ gate_accepts "Moscow,ru" None (env_ok minute) [moscow_row None].
Proof.
  exact (null_created_at_counts_as_no_record "Moscow,ru" None 30 (env_ok minute)
           [moscow_row None] (moscow_row None) eq_refl eq_refl eq_refl).
Defined.

(** C7, counterexample.  A row for Moscow is one minute old.  With a working
    read the default call is skipped; when the SELECT of the last record
    fails, the very same call, which opts in to nothing, is saved: the read
    failure is taken for ACCEPT and raises no error. *)
Lemma read_failure_accepts_without_opt_in :
  (exists r,
     save_weather_data "Moscow,ru" (JFloat (Qmake 20 1)) (JInt 40) (JInt 1013)
       (JStr "clear sky") JNull JNull None true
       (env_ok minute) [moscow_row (Some at_epoch)]
     = (Ok r, [moscow_row (Some at_epoch)])
     /\ skipped r = true /\ saved r = false)
  /\
  (exists r row,
     save_weather_data "Moscow,ru" (JFloat (Qmake 20 1)) (JInt 40) (JInt 1013)
       (JStr "clear sky") JNull JNull None true
       (env_query_fails minute) [moscow_row (Some at_epoch)]
     = (Ok r, [moscow_row (Some at_epoch); row])
     /\ saved r = true /\ reason r = "saved" /\ w_city row = "Moscow,ru").
Proof.
  split.
  - eexists. split; [vm_compute; reflexivity|]. split; reflexivity.
  - do 2 eexists. split; [vm_compute; reflexivity|]. repeat split; reflexivity.
Qed.

(** C7, amended.  When the SELECT of the most recent row fails,
    [get_last_weather_record] returns [None] and the gate ACCEPTs, whatever
    the caller passed: there is no opt-in.  Only a failure to open the
    session for that read escapes [is_data_fresh]; [save_weather_data] then
    returns the [error] result for the entity and leaves the table alone. *)
Theorem read_failure_policy
    (city : string) (min_age_minutes : option Z) (m : Z) (e : Env) (tbl : Table) :
  resolve_min_age min_age_minutes e = Ok m ->
  session_ok e = true ->
  (read_session_ok e = true -> query_ok e = false ->
     get_last_weather_record city e tbl = Ok None /\
     is_data_fresh city m e tbl = Ok (false, None, None) /\
     gate_accepts city min_age_minutes e tbl)
  /\
  (read_session_ok e = false ->
     is_data_fresh city m e tbl = Raise SQLAlchemyError /\
     forall temperature humidity pressure description wind_speed clouds,
       save_weather_data city temperature humidity pressure description
         wind_speed clouds min_age_minutes true e tbl
       = (Ok {| saved := false; skipped := false; reason := "error";
                age_minutes := None;
                message := MsgError city SQLAlchemyError |}, tbl)).
Proof.
  intros Hm Hs. split.
  - intros Hr Hq.
    assert (Hl : get_last_weather_record city e tbl = Ok None).
    { unfold get_last_weather_record, get_session. now rewrite Hr, Hq. }
    assert (Hf : is_data_fresh city m e tbl = Ok (false, None, None)).
    { unfold is_data_fresh. now rewrite Hl. }
    split; [exact Hl|]. split; [exact Hf|]. eapply not_fresh_accepts; eauto.
  - intros Hr.
    assert (Hf : is_data_fresh city m e tbl = Raise SQLAlchemyError).
    { unfold is_data_fresh, get_last_weather_record, get_session. now rewrite Hr. }
    split; [exact Hf|]. intros t h p d ws cl.
    unfold save_weather_data. rewrite Hm, Hs. simpl.
    unfold save_try. now rewrite Hf.
Qed.

Lemma read_failure_policy_witness :
  gate_accepts "Moscow,ru" None (env_query_fails minute) [moscow_row (Some at_epoch)].
Proof.
  refine (proj2 (proj2 (proj1 (read_failure_policy "Moscow,ru" None 30
            (env_query_fails minute) [moscow_row (Some at_epoch)] eq_refl eq_refl)
            eq_refl eq_refl))).
Defined.

(** ** The insert of [save_weather_data] *)

Lemma db_insert_Some (e : Env) (weather row : WeatherData) :
  db_insert e weather = Some row <-> commit_ok e = true /\ stored_as e weather row.
Proof.
  unfold db_insert, stored_as. destruct (commit_ok e).
  - destruct (store e SqlFloat false (w_temperature weather)) as [t|];
      [|split; [discriminate | intros (_ & _ & _ & _ & [=] & _)]].
    destruct (store e SqlInteger true (w_humidity weather)) as [h|];
      [|split; [discriminate | intros (_ & _ & _ & _ & _ & [=] & _)]].
    destruct (store e SqlInteger true (w_pressure weather)) as [p|];
      [|split; [discriminate | intros (_ & _ & _ & _ & _ & _ & [=] & _)]].
    destruct (store e (SqlString 200) true (w_description weather)) as [d|];
      [|split; [discriminate | intros (_ & _ & _ & _ & _ & _ & _ & [=] & _)]].
    destruct (store e SqlFloat true (w_wind_speed weather)) as [ws|];
      [|split; [discriminate | intros (_ & _ & _ & _ & _ & _ & _ & _ & [=] & _)]].
    destruct (store e SqlInteger true (w_clouds weather)) as [cl|];
      [|split; [discriminate | intros (_ & _ & _ & _ & _ & _ & _ & _ & _ & [=])]].
    split.
    + intros [= <-]. simpl. repeat split; reflexivity.
    + intros (_ & Hid & Hcity & Hcr & [= ->] & [= ->] & [= ->] & [= ->] & [= ->] & [= ->]).
      destruct row; simpl in *. now subst.
  - split; [discriminate | intros [[=] _]].
Qed.

(** NULL stays NULL in the columns that allow it. *)
Lemma store_null (e : Env) (ty : column_type) (v : pyval) :
  store e ty true JNull = Some v -> v = JNull.
Proof. now intros [= <-]. Qed.

(** What a call that gets past the gate comes to. *)
Lemma save_try_insert
    (city : string) (t h p d ws cl : pyval) (m : Z) (e : Env) (tbl : Table) :
  save_try city t h p d ws cl m false e tbl
  = (rounded <~ round1 t ;;
     match db_insert e (inserted_row city rounded h p d ws cl e) with
     | Some row =>
         Ok ({| saved := true; skipped := false; reason := "saved";
                age_minutes := None; message := MsgSaved city |},
             (tbl ++ [row])%list)
     | None => Raise SQLAlchemyError
     end).
Proof. reflexivity. Qed.

Lemma save_try_not_fresh
    (city : string) (t h p d ws cl : pyval) (m : Z) (skip_if_fresh : bool)
    (e : Env) (tbl : Table) :
  (skip_if_fresh = false \/
   exists last a, is_data_fresh city m e tbl = Ok (false, last, a)) ->
  save_try city t h p d ws cl m skip_if_fresh e tbl
  = save_try city t h p d ws cl m false e tbl.
Proof.
  intros [-> | (last & a & Hf)]; [reflexivity|].
  destruct skip_if_fresh; [|reflexivity]. unfold save_try. now rewrite Hf.
Qed.

(** [save_weather_data] around its [try] block. *)
Lemma save_weather_data_try
    (city : string) (t h p d ws cl : pyval) (min_age_minutes : option Z)
    (skip_if_fresh : bool) (e : Env) (tbl : Table) :
  save_weather_data city t h p d ws cl min_age_minutes skip_if_fresh e tbl
  = match resolve_min_age min_age_minutes e, get_session (session_ok e) with
    | Ok m, Ok _ =>
        match save_try city t h p d ws cl m skip_if_fresh e tbl with
        | Ok (result, tbl') => (Ok result, tbl')
        | Raise x => (Ok (error_result city x), tbl)
        end
    | Raise x, _ => (Raise x, tbl)
    | Ok _, Raise x => (Raise x, tbl)
    end.
Proof.
  unfold save_weather_data.
  destruct (resolve_min_age min_age_minutes e) as [m|x]; [|reflexivity].
  now destruct (get_session (session_ok e)) as [[]|x].
Qed.

(** C6.  Once [save_weather_data] reaches the insert (the gate is off, or
    [is_data_fresh] answered "not fresh"), one of two things happens.  Either
    the temperature is rounded, the database takes the row, and the call
    appends to the table exactly one row, complete: the id and the timestamp
    assigned by the database, the key, and in every other column the
    database's conversion of the value passed (the temperature rounded
    first); it returns the [saved] result.  Or [round] raises or the database
    refuses the row, the table is left exactly as it was, and the call
    returns the structured [error] result. *)
Theorem insert_is_all_or_nothing
    (city : string) (temperature humidity pressure description wind_speed clouds : pyval)
    (min_age_minutes : option Z) (skip_if_fresh : bool) (m : Z) (e : Env) (tbl : Table) :
  resolve_min_age min_age_minutes e = Ok m ->
  session_ok e = true ->
  (skip_if_fresh = false \/
   exists last a, is_data_fresh city m e tbl = Ok (false, last, a)) ->
  (exists rounded row,
     round1 temperature = Ok rounded /\ commit_ok e = true /\
     stored_as e (inserted_row city rounded humidity pressure description
                    wind_speed clouds e) row /\
     save_weather_data city temperature humidity pressure description
       wind_speed clouds min_age_minutes skip_if_fresh e tbl
     = (Ok {| saved := true; skipped := false; reason := "saved";
              age_minutes := None; message := MsgSaved city |},
        (tbl ++ [row])%list))
  \/
  (exists x,
     (round1 temperature = Raise x \/
      (x = SQLAlchemyError /\
       exists rounded,
         round1 temperature = Ok rounded /\
         db_insert e (inserted_row city rounded humidity pressure description
                        wind_speed clouds e) = None)) /\
     save_weather_data city temperature humidity pressure description
       wind_speed clouds min_age_minutes skip_if_fresh e tbl
     = (Ok {| saved := false; skipped := false; reason := "error";
              age_minutes := None; message := MsgError city x |}, tbl)).
Proof.
  intros Hm Hs Hgate.
  unfold save_weather_data. rewrite Hm, Hs. cbn [bind get_session].
  rewrite (save_try_not_fresh _ _ _ _ _ _ _ _ _ _ _ Hgate), save_try_insert.
  destruct (round1 temperature) as [rounded|x] eqn:Hround; cbn [bind].
  - destruct (db_insert e _) as [row|] eqn:Hins.
    + left. exists rounded, row. apply db_insert_Some in Hins as [Hc Hst]. auto.
    + right. exists SQLAlchemyError. split; [|reflexivity]. right. eauto.
  - right. exists x. auto.
Qed.

(** A call for Moscow with a humidity of 40.5 and a pressure of 1013.7: the
    row is stored with the temperature rounded to 21.6 and, in the Integer
    columns, 41 and 1014. *)
Lemma insert_is_all_or_nothing_witness :
  exists rounded row,
    round1 (JFloat (Qmake 2155 100)) = Ok rounded /\
    rounded = JFloat (Qmake 216 10) /\
    w_humidity row = JInt 41 /\ w_pressure row = JInt 1014 /\
    save_weather_data "Moscow,ru" (JFloat (Qmake 2155 100))
      (JFloat (Qmake 405 10)) (JFloat (Qmake 10137 10))
      (JStr "clear sky") JNull JNull None true (env_ok minute) []
    = (Ok {| saved := true; skipped := false; reason := "saved";
             age_minutes := None; message := MsgSaved "Moscow,ru" |},
       ([] ++ [row])%list).
Proof.
  destruct (insert_is_all_or_nothing "Moscow,ru" (JFloat (Qmake 2155 100))
              (JFloat (Qmake 405 10)) (JFloat (Qmake 10137 10))
              (JStr "clear sky") JNull JNull None true 30 (env_ok minute) []
              eq_refl eq_refl
              (or_intror (ex_intro _ None (ex_intro _ None eq_refl))))
    as [(rounded & row & Hr & _ & Hst & Hsave) | (x & Hx & _)].
  - exists rounded, row.
    destruct Hst as (_ & _ & _ & _ & Hh & Hp & _).
    assert (Er : Ok (JFloat (Qmake 216 10)) = Ok rounded)
      by (rewrite <- Hr; vm_compute; reflexivity).
    assert (Eh : Some (JInt 41) = Some (w_humidity row))
      by (rewrite <- Hh; vm_compute; reflexivity).
    assert (Ep : Some (JInt 1014) = Some (w_pressure row))
      by (rewrite <- Hp; vm_compute; reflexivity).
    injection Er as Er. injection Eh as Eh. injection Ep as Ep.
    repeat split; try assumption; symmetry; assumption.
  - exfalso. destruct Hx as [Hx | (_ & rounded & Hr & Hins)].
    + vm_compute in Hx. discriminate Hx.
    + vm_compute in Hr. injection Hr as <-. vm_compute in Hins. discriminate Hins.
Defined.

(** ** The Celery task: [save_weather_task] *)

(** C10.  Whenever [save_weather_data] returns (a result of any reason,
    [error] and [skipped_fresh] included), [save_weather_task] answers with
    status [success] for the city: it tests the returned dict, which is never
    empty, not its [saved] entry. *)
Theorem task_reports_success_when_save_returns
    (weather_data : Payload) (e : Env) (tbl tbl' : Table)
    (city : string) (temperature humidity pressure description : pyval)
    (result : SaveResult) :
  p_city weather_data = Some city ->
  p_temperature weather_data = Some temperature ->
  p_humidity weather_data = Some humidity ->
  p_pressure weather_data = Some pressure ->
  p_description weather_data = Some description ->
  save_weather_data city temperature humidity pressure description
    JNull JNull None true e tbl = (Ok result, tbl') ->
  save_weather_task weather_data e tbl = (StatusCity "success" city, tbl').
Proof.
  intros Hc Ht Hh Hp Hd Hsave. unfold save_weather_task.
  rewrite Hc, Ht, Hh, Hp, Hd. simpl. rewrite Hsave. reflexivity.
Qed.

(** The same for a payload that is skipped because fresh data is stored. *)
Example task_reports_success_on_skip :
  save_weather_task
    {| p_city := Some "Moscow,ru"; p_temperature := Some (JFloat (Qmake 215 10));
       p_humidity := Some (JInt 40); p_pressure := Some (JInt 1013);
       p_description := Some (JStr "clear sky") |}
    (env_ok minute) [moscow_row (Some at_epoch)]
  = (StatusCity "success" "Moscow,ru", [moscow_row (Some at_epoch)]).
Proof. vm_compute. reflexivity. Qed.

(** A payload without [temperature] never reaches [save_weather_data]. *)
Example task_reports_error_on_missing_key :
  save_weather_task
    {| p_city := Some "Moscow,ru"; p_temperature := None;
       p_humidity := Some (JInt 40); p_pressure := Some (JInt 1013);
       p_description := Some (JStr "clear sky") |}
    (env_ok minute) []
  = (StatusMessage "error" (KeyError "temperature"), []).
Proof. reflexivity. Qed.

Lemma task_reports_success_when_save_returns_witness :
  exists result,
    reason result = "error" /\ saved result = false /\
    save_weather_task
      {| p_city := Some "Moscow,ru"; p_temperature := Some (JFloat (Qmake 215 10));
         p_humidity := Some (JInt 40); p_pressure := Some (JInt 1013);
         p_description := Some (JStr "clear sky") |}
      (env_commit_fails minute) []
    = (StatusCity "success" "Moscow,ru", []).
Proof.
  eexists {| saved := false; skipped := false; reason := "error";
             age_minutes := None;
             message := MsgError "Moscow,ru" SQLAlchemyError |}.
  split; [reflexivity|]. split; [reflexivity|].
  eapply (task_reports_success_when_save_returns _ (env_commit_fails minute) [] []
            "Moscow,ru" (JFloat (Qmake 215 10)) (JInt 40) (JInt 1013) (JStr "clear sky"));
    reflexivity.
Defined.

(** ** The Pipeline Coordinator: [save_results_to_db] *)

(** What one call of [save_weather_data] can do to the table. *)
Lemma save_weather_data_cases
    (city : string) (t h p d ws cl : pyval) (min_age_minutes : option Z)
    (skip_if_fresh : bool) (e : Env) (tbl : Table) :
  (exists x, save_weather_data city t h p d ws cl min_age_minutes skip_if_fresh e tbl
             = (Raise x, tbl))
  \/ (exists r, save_weather_data city t h p d ws cl min_age_minutes skip_if_fresh e tbl
                = (Ok r, tbl) /\ saved r = false)
  \/ (exists r rounded row,
        save_weather_data city t h p d ws cl min_age_minutes skip_if_fresh e tbl
        = (Ok r, (tbl ++ [row])%list)
        /\ saved r = true /\ commit_ok e = true
        /\ stored_as e (inserted_row city rounded h p d ws cl e) row).
Proof.
  rewrite save_weather_data_try.
  destruct (resolve_min_age min_age_minutes e) as [m|x]; [|eauto].
  destruct (get_session (session_ok e)) as [[]|x]; [|eauto].
  assert (Hinsert :
    (exists r, match save_try city t h p d ws cl m false e tbl with
               | Ok (result, tbl') => (Ok result, tbl')
               | Raise x => (Ok (error_result city x), tbl)
               end = (Ok r, tbl) /\ saved r = false)
    \/ (exists r rounded row,
          match save_try city t h p d ws cl m false e tbl with
          | Ok (result, tbl') => (Ok result, tbl')
          | Raise x => (Ok (error_result city x), tbl)
          end = (Ok r, (tbl ++ [row])%list)
          /\ saved r = true /\ commit_ok e = true
          /\ stored_as e (inserted_row city rounded h p d ws cl e) row)).
  { rewrite save_try_insert.
    destruct (round1 t) as [rounded|x]; cbn [bind]; [|left; eauto].
    destruct (db_insert e _) as [row|] eqn:Hins; [|left; eauto].
    apply db_insert_Some in Hins as [Hc Hst]. right. eauto 8. }
  right. destruct skip_if_fresh; [|exact Hinsert].
  destruct (is_data_fresh city m e tbl) as [[[[|] last] a]|x] eqn:Hf.
  - left. unfold save_try. rewrite Hf. cbn [bind]. eauto.
  - rewrite (save_try_not_fresh city t h p d ws cl m true e tbl) by eauto.
    exact Hinsert.
  - left. unfold save_try. rewrite Hf. cbn [bind]. eauto.
Qed.

(** One round of the loop either counts one save and appends one row, or
    leaves the table and the save count alone. *)
Lemma save_one_cases (weather_data : option Observation) (e : Env) (st : LoopState) :
  (exists d rounded row,
     weather_data = Some d /\ commit_ok e = true /\
     stored_as e (inserted_row (o_city d) rounded (o_humidity d) (o_pressure d)
                    (o_description d) (o_wind_speed d) (o_clouds d) e) row /\
     save_one weather_data e st
     = {| saved_count := saved_count st + 1;
          skipped_count := skipped_count st;
          table := (table st ++ [row])%list |})
  \/ (exists k, (k = 0 \/ k = 1) /\
        save_one weather_data e st
        = {| saved_count := saved_count st;
             skipped_count := skipped_count st + k;
             table := table st |}).
Proof.
  destruct st as [sv sk tbl]. destruct weather_data as [d|]; simpl.
  - destruct (save_weather_data_cases (o_city d) (o_temperature d) (o_humidity d)
                (o_pressure d) (o_description d) (o_wind_speed d) (o_clouds d)
                (Some 30) true e tbl)
      as [(x & ->) | [(r & -> & Hr) | (r & rounded & row & -> & Hr & Hcommit & Hst)]].
    + right. exists 0. split; [auto|]. now rewrite Z.add_0_r.
    + right. rewrite Hr. destruct (skipped r).
      * exists 1. auto.
      * exists 0. split; [auto|]. now rewrite Z.add_0_r.
    + left. rewrite Hr. eauto 8.
  - right. exists 0. split; [auto|]. now rewrite Z.add_0_r.
Qed.

Lemma save_loop_counts (l : list (option Observation)) (envs : nat -> Env) :
  forall (i : nat) (st : LoopState),
    let st' := save_loop i l envs st in
    saved_count st <= saved_count st' /\
    skipped_count st <= skipped_count st' /\
    (saved_count st' - saved_count st) + (skipped_count st' - skipped_count st)
      <= Z.of_nat (length l) /\
    Z.of_nat (length (table st'))
      = Z.of_nat (length (table st)) + (saved_count st' - saved_count st).
Proof.
  induction l as [|x rest IH]; intros i st; simpl.
  - lia.
  - specialize (IH (S i) (save_one x (envs i) st)). simpl in IH.
    destruct IH as (H1 & H2 & H3 & H4).
    destruct (save_one_cases x (envs i) st)
      as [(d & rounded & row & _ & _ & _ & E) | (k & Hk & E)];
      rewrite E in *; simpl in *.
    + rewrite length_app in H4. simpl in H4. lia.
    + lia.
Qed.

(** A refused insert is recorded by nothing but the log, and the loop goes on
    with the remaining observations from the state it had. *)
Lemma failed_insert_does_not_stop_the_loop
    (d : Observation) (rest : list (option Observation)) (envs : nat -> Env)
    (i : nat) (st : LoopState) :
  commit_ok (envs i) = false ->
  exists k, (k = 0 \/ k = 1) /\
    save_loop i (Some d :: rest) envs st
    = save_loop (S i) rest envs
        {| saved_count := saved_count st;
           skipped_count := skipped_count st + k;
           table := table st |}.
Proof.
  intros Hcommit. simpl.
  destruct (save_one_cases (Some d) (envs i) st)
    as [(d' & rounded & row & _ & Hc & _) | (k & Hk & E)].
  - congruence.
  - exists k. split; [assumption|]. unfold save_one in E. now rewrite E.
Qed.

Lemma save_results_to_db_loop
    (xcom : option (list (option Observation))) (envs : nat -> Env) (tbl : Table) :
  save_results_to_db xcom envs tbl
  = (Ok (saved_count (save_loop 0 (default [] xcom) envs (initial tbl))),
     table (save_loop 0 (default [] xcom) envs (initial tbl))).
Proof. destruct xcom as [[|x rest]|]; reflexivity. Qed.

(** C4, counterexample.  No function of the value returned by
    [save_results_to_db] gives the number of skipped observations: a run
    whose only observation is skipped and a run whose only insert fails both
    return 0. *)
Lemma returned_value_is_not_a_summary :
  ~ exists decode : pyres Z -> Z,
      forall envs tbl,
        decode (fst (save_results_to_db (Some [Some moscow_obs]) envs tbl))
        = skipped_count (save_loop 0 [Some moscow_obs] envs (initial tbl)).
Proof.
  intros [decode H].
  pose proof (H (fun _ => env_ok minute) [moscow_row (Some at_epoch)]) as H1.
  pose proof (H (fun _ => env_commit_fails minute) []) as H2.
  vm_compute in H1, H2. congruence.
Qed.

(** C4, amended.  [save_results_to_db] always returns, without raising, and
    what it returns is only the number of observations saved, which is the
    number of rows added; the number skipped is a loop variable that is
    printed, and there is neither a fetch-failed count nor an outcome per
    entity.  With nothing to save or nothing saved the value is 0. *)
Theorem save_results_returns_saved_count
    (xcom : option (list (option Observation))) (envs : nat -> Env) (tbl : Table) :
  let st := save_loop 0 (default [] xcom) envs (initial tbl) in
  save_results_to_db xcom envs tbl = (Ok (saved_count st), table st)
  /\ 0 <= saved_count st
  /\ 0 <= skipped_count st
  /\ saved_count st + skipped_count st <= Z.of_nat (length (default [] xcom))
  /\ Z.of_nat (length (table st)) = Z.of_nat (length tbl) + saved_count st.
Proof.
  intros st.
  pose proof (save_loop_counts (default [] xcom) envs 0%nat (initial tbl)) as H.
  simpl in H. fold st in H. destruct H as (H1 & H2 & H3 & H4).
  split; [|lia]. apply save_results_to_db_loop.
Qed.

(** ** Two runs in succession *)

Lemma first_desc_elem (rows : list WeatherData) (r : WeatherData) :
  first_desc rows = Some r -> r ∈ rows.
Proof.
  revert r. induction rows as [|x rest IH]; intros r; simpl; [discriminate|].
  destruct (first_desc rest) as [r'|].
  - destruct (sorts_before _ _); intros [= <-]; [right; now apply IH | left].
  - intros [= <-]. left.
Qed.

Lemma first_desc_None (rows : list WeatherData) :
  first_desc rows = None -> rows = [].
Proof.
  destruct rows as [|x rest]; simpl; [reflexivity|].
  destruct (first_desc rest); [destruct (sorts_before _ _)|]; discriminate.
Qed.

(** On rows that all carry a timestamp, the query returns a row at least as
    recent as any given one. *)
Lemma first_desc_newest (rows : list WeatherData) :
  (forall r, r ∈ rows -> w_created_at r <> None) ->
  forall r0 c0, r0 ∈ rows -> w_created_at r0 = Some c0 ->
    exists r c, first_desc rows = Some r /\ r ∈ rows /\
                w_created_at r = Some c /\ instant c0 <= instant c.
Proof.
  induction rows as [|x rest IH]; intros Hall r0 c0 Hin Hc0.
  - inversion Hin.
  - assert (Hall' : forall r, r ∈ rest -> w_created_at r <> None).
    { intros r Hr. apply Hall. now right. }
    destruct (w_created_at x) as [cx|] eqn:Hcx;
      [|exfalso; apply (Hall x); [left | assumption]].
    simpl. destruct (first_desc rest) as [r'|] eqn:Hrest.
    + pose proof (first_desc_elem _ _ Hrest) as Hr'.
      destruct (w_created_at r') as [c'|] eqn:Hc';
        [|exfalso; now apply (Hall' r')].
      rewrite Hcx. simpl.
      assert (Hc0' : instant c0 <= instant cx \/ instant c0 <= instant c').
      { apply elem_of_cons in Hin as [-> | Hin].
        - left. rewrite Hcx in Hc0. injection Hc0 as <-. lia.
        - right. destruct (IH Hall' r0 c0 Hin Hc0) as (r & c & Hr & _ & Hc & Hle).
          try rewrite Hrest in Hr. injection Hr as <-.
          rewrite Hc' in Hc. now injection Hc as <-. }
      destruct (Z.ltb_spec (instant cx) (instant c')).
      * exists r', c'. repeat split; try assumption; [now right | lia].
      * exists x, cx. repeat split; try assumption; [left | lia].
    + apply first_desc_None in Hrest. subst rest.
      apply elem_of_cons in Hin as [-> | Hin]; [|inversion Hin].
      rewrite Hcx in Hc0. injection Hc0 as <-.
      exists x, cx. repeat split; try assumption; [left | lia].
Qed.

(** A timestamped row of the key younger than the threshold makes the data
    fresh, provided every row of the key carries a timestamp. *)
Lemma recent_row_is_fresh (city : string) (m : Z) (e : Env) (tbl : Table)
    (r0 : WeatherData) (c0 : datetime) :
  0 <= m <= 50000000 ->
  read_session_ok e = true -> query_ok e = true ->
  (forall r, r ∈ tbl -> w_created_at r <> None) ->
  r0 ∈ tbl -> w_city r0 = city -> w_created_at r0 = Some c0 ->
  now_utc e - instant c0 < m * minute ->
  exists r a, is_data_fresh city m e tbl = Ok (true, Some r, Some a).
Proof.
  intros Hm Hs Hq Hall Hin Hcity Hc0 Hage.
  destruct (first_desc_newest (filter (fun r => w_city r = city) tbl))
    with (r0 := r0) (c0 := c0) as (r & c & Hr & _ & Hc & Hle).
  - intros r [_ Hr]%list_elem_of_filter. now apply Hall.
  - apply list_elem_of_filter. auto.
  - assumption.
  - assert (Hl : get_last_weather_record city e tbl = Ok (Some r)).
    { unfold get_last_weather_record, get_session. now rewrite Hs, Hq, Hr. }
    rewrite (is_data_fresh_record city m e tbl r c Hl Hc).
    unfold record_age. rewrite measured_age_below by lia. eauto.
Qed.

Section Runs.

Variable envs : nat -> Env.

(** A run that saved every one of its observations appended one timestamped
    row per observation, stamped by the database during that round. *)
Lemma all_saved_rows (obs : list Observation) :
  forall (i : nat) (st : LoopState),
    saved_count (save_loop i (Some <$> obs) envs st)
      = saved_count st + Z.of_nat (length obs) ->
    exists rows,
      table (save_loop i (Some <$> obs) envs st) = (table st ++ rows)%list /\
      (forall r, r ∈ rows -> w_created_at r <> None) /\
      (forall k d, obs !! k = Some d ->
         exists row, row ∈ rows /\ w_city row = o_city d /\
           w_created_at row
           = Some {| wall := db_now (envs (i + k)%nat); utcoffset := Some 0 |}).
Proof.
  induction obs as [|d rest IH]; intros i st Hsaved.
  - exists []. simpl. rewrite app_nil_r. repeat split.
    + intros r Hr. inversion Hr.
    + intros k d Hk. destruct k; discriminate.
  - change (save_loop i (Some <$> d :: rest) envs st)
      with (save_loop (S i) (Some <$> rest) envs (save_one (Some d) (envs i) st))
      in *.
    cbn [length] in Hsaved. rewrite Nat2Z.inj_succ in Hsaved.
    pose proof (save_loop_counts (Some <$> rest) envs (S i)
                  (save_one (Some d) (envs i) st)) as Hcnt.
    cbv zeta in Hcnt. rewrite length_fmap in Hcnt.
    destruct (save_one_cases (Some d) (envs i) st)
      as [(d' & rounded & row & [= <-] & _ & Hst & E) | (k & Hk & E)].
    + destruct (IH (S i) (save_one (Some d) (envs i) st)) as (rows & Ht & Hts & Hrows).
      { rewrite Hsaved, E. simpl. lia. }
      destruct Hst as (_ & Hcity & Hcreated & _).
      exists (row :: rows).
      split; [|split].
      * rewrite Ht, E. simpl. rewrite <- app_assoc. reflexivity.
      * intros r [-> | Hr]%elem_of_cons; [now rewrite Hcreated | now apply Hts].
      * intros [|k] d0 Hk; simpl in Hk.
        -- injection Hk as <-. exists row. split; [left|].
           rewrite Nat.add_0_r. split; assumption.
        -- destruct (Hrows k d0 Hk) as (row0 & Hin & Hc & Hcr).
           exists row0. split; [now right|]. split; [assumption|].
           rewrite Hcr. now replace (i + S k)%nat with (S i + k)%nat by lia.
    + exfalso. rewrite E in Hcnt, Hsaved. simpl in Hcnt. lia.
Qed.

(** A run all of whose observations meet fresh data skips them all. *)
Lemma all_fresh_skipped (obs : list Observation) :
  forall (i : nat) (st : LoopState),
    (forall k d, obs !! k = Some d ->
       session_ok (envs (i + k)%nat) = true /\
       exists r a, is_data_fresh (o_city d) 30 (envs (i + k)%nat) (table st)
                   = Ok (true, Some r, Some a)) ->
    save_loop i (Some <$> obs) envs st
    = {| saved_count := saved_count st;
         skipped_count := skipped_count st + Z.of_nat (length obs);
         table := table st |}.
Proof.
  induction obs as [|d rest IH]; intros i st Hfresh.
  - simpl. destruct st. simpl. now rewrite Z.add_0_r.
  - change (save_loop i (Some <$> d :: rest) envs st)
      with (save_loop (S i) (Some <$> rest) envs (save_one (Some d) (envs i) st)).
    assert (E : save_one (Some d) (envs i) st
                = {| saved_count := saved_count st;
                     skipped_count := skipped_count st + 1;
                     table := table st |}).
    { destruct (Hfresh 0%nat d eq_refl) as (Hs & r & a & Hf).
      rewrite Nat.add_0_r in Hs, Hf.
      unfold save_one, save_weather_data. simpl. rewrite Hs. simpl.
      unfold save_try. rewrite Hf. reflexivity. }
    rewrite E, IH.
    + cbn [saved_count skipped_count table length]. f_equal.
      rewrite Nat2Z.inj_succ. lia.
    + intros k d0 Hk. specialize (Hfresh (S k) d0 Hk).
      cbn [table]. now replace (S i + k)%nat with (i + S k)%nat by lia.
Qed.

End Runs.

(** Two runs for one entity.  The first, on an empty table, saves it
    ([saved = K = 1]); the second, one minute later, skips it and saves
    nothing: its own counts are [saved = 0], [skipped = 1]. *)
Example second_run_saved_count_is_zero :
  let first := save_results_to_db (Some [Some moscow_obs]) (fun _ => env_ok 0) [] in
  let second := save_loop 0 [Some moscow_obs] (fun _ => env_ok minute)
                  (initial (snd first)) in
  fst first = Ok 1
  /\ saved_count second = 0
  /\ skipped_count second = 1
  /\ saved_count second <> 1
  /\ fst (save_results_to_db (Some [Some moscow_obs]) (fun _ => env_ok minute)
            (snd first)) = Ok 0.
Proof. vm_compute. repeat split; discriminate. Qed.

(** C5.  Two runs in succession with [skip_if_fresh=true] and the default
    threshold of 30 minutes.  Let every stored row carry a [created_at], let
    the first run save all of its [K] observations ([saved = K]), and let the
    second run, with the store reachable, handle observations of the same
    [K] keys less than 30 minutes after the inserts of the first.  Then the
    second run skips all [K] of them ([skipped = K]): it saves nothing and
    leaves the table as the first run left it. *)
Theorem second_run_skips_every_entity
    (obs1 obs2 : list Observation) (envs1 envs2 : nat -> Env) (tbl : Table) :
  (forall r, r ∈ tbl -> w_created_at r <> None) ->
  o_city <$> obs2 = o_city <$> obs1 ->
  (forall j, (j < length obs2)%nat ->
     session_ok (envs2 j) = true /\ read_session_ok (envs2 j) = true /\
     query_ok (envs2 j) = true) ->
  (forall i j, (i < length obs1)%nat -> (j < length obs2)%nat ->
     now_utc (envs2 j) - db_now (envs1 i) < 30 * minute) ->
  fst (save_results_to_db (Some (Some <$> obs1)) envs1 tbl)
    = Ok (Z.of_nat (length obs1)) ->
  let tbl1 := snd (save_results_to_db (Some (Some <$> obs1)) envs1 tbl) in
  save_loop 0 (Some <$> obs2) envs2 (initial tbl1)
    = {| saved_count := 0;
         skipped_count := Z.of_nat (length obs1);
         table := tbl1 |}
  /\ save_results_to_db (Some (Some <$> obs2)) envs2 tbl1 = (Ok 0, tbl1).
Proof.
  intros Hall Hkeys Hdb Htime Hfirst tbl1.
  assert (Hlen : length obs2 = length obs1).
  { rewrite <- (length_fmap o_city obs2), Hkeys. apply length_fmap. }
  rewrite save_results_to_db_loop in Hfirst. simpl in Hfirst.
  injection Hfirst as Hfirst.
  destruct (all_saved_rows envs1 obs1 0%nat (initial tbl)) as (rows & Ht & Hts & Hrows).
  { rewrite Hfirst. reflexivity. }
  assert (Htbl1 : tbl1 = (tbl ++ rows)%list).
  { unfold tbl1. rewrite save_results_to_db_loop. exact Ht. }
  assert (Hloop : save_loop 0 (Some <$> obs2) envs2 (initial tbl1)
                  = {| saved_count := 0;
                       skipped_count := Z.of_nat (length obs1);
                       table := tbl1 |}).
  { rewrite all_fresh_skipped.
    - simpl. now rewrite Hlen.
    - intros k d2 Hk. simpl.
      assert (Hk2 : (k < length obs2)%nat) by (eapply lookup_lt_Some; eauto).
      destruct (Hdb k Hk2) as (Hs & Hr & Hq). split; [assumption|].
      assert (Hk1 : exists d1, obs1 !! k = Some d1 /\ o_city d1 = o_city d2).
      { assert (E : (o_city <$> obs1) !! k = Some (o_city d2)).
        { rewrite <- Hkeys, list_lookup_fmap, Hk. reflexivity. }
        rewrite list_lookup_fmap in E.
        destruct (obs1 !! k) as [d1|]; simpl in E; [|discriminate].
        injection E as E. eauto. }
      destruct Hk1 as (d1 & Hd1 & Hcity).
      destruct (Hrows k d1 Hd1) as (row & Hin & Hrc & Hcr).
      eapply (recent_row_is_fresh (o_city d2) 30 (envs2 k) tbl1 row).
      + lia.
      + assumption.
      + assumption.
      + rewrite Htbl1. intros r [Hr0 | Hr0]%elem_of_app; auto.
      + rewrite Htbl1. apply elem_of_app. now right.
      + congruence.
      + exact Hcr.
      + unfold instant. simpl.
        assert (Hk1' : (k < length obs1)%nat) by lia.
        specialize (Htime k k Hk1' Hk2). lia. }
  split; [exact Hloop|].
  rewrite save_results_to_db_loop. simpl. now rewrite Hloop.
Qed.

Lemma second_run_skips_every_entity_witness :
  let tbl1 := snd (save_results_to_db (Some (Some <$> [moscow_obs]))
                     (fun _ => env_ok 0) []) in
  save_loop 0 (Some <$> [moscow_obs]) (fun _ => env_ok minute) (initial tbl1)
    = {| saved_count := 0;
         skipped_count := Z.of_nat (length [moscow_obs]);
         table := tbl1 |}
  /\ save_results_to_db (Some (Some <$> [moscow_obs])) (fun _ => env_ok minute) tbl1
     = (Ok 0, tbl1).
Proof.
  apply (second_run_skips_every_entity [moscow_obs] [moscow_obs]
           (fun _ => env_ok 0) (fun _ => env_ok minute) []).
  - intros r Hr. inversion Hr.
  - reflexivity.
  - intros j _. repeat split; reflexivity.
  - intros i j _ _. reflexivity.
  - reflexivity.
Defined.

(** * Further properties of the code *)

(** ** [fetch_city_weather]: which replies give an observation *)

Lemma getitem_Ok (v : pyval) (k : string) (x : pyval) :
  getitem v k = Ok x <-> exists m, v = JObj m /\ m !! k = Some x.
Proof.
  split.
  - destruct v; simpl; try discriminate.
    destruct (m !! k) eqn:E; [|discriminate]. intros [= <-]. eauto.
  - intros (m & -> & E). simpl. now rewrite E.
Qed.

Lemma getitem0_dict (v : pyval) (x : pyval) (k : string) (y : pyval) :
  getitem0 v = Ok x -> getitem x k = Ok y ->
  exists m others, v = JArr (JObj m :: others) /\ x = JObj m /\ m !! k = Some y.
Proof.
  intros H0 (m & -> & Hk)%getitem_Ok.
  destruct v as [| | | |[|c s']|[|x l]|]; simpl in H0; try discriminate.
  injection H0 as ->. eauto.
Qed.

(** The shape of the payloads that [fetch_city_weather] accepts. *)
Lemma fetch_city_weather_payload
    (city : string) (reply : http_reply) (t : Q) (d : Observation) :
  fetch_city_weather city reply t = Some d <->
  exists top main temp rounded humidity pressure weather0 others description
         wind clouds,
    reply = Response 200 (Ok (JObj top)) /\
    top !! "main" = Some (JObj main) /\
    main !! "temp" = Some temp /\
    round1 temp = Ok rounded /\
    main !! "humidity" = Some humidity /\
    main !! "pressure" = Some pressure /\
    top !! "weather" = Some (JArr (JObj weather0 :: others)) /\
    weather0 !! "description" = Some description /\
    top !! "wind" = Some (JObj wind) /\
    top !! "clouds" = Some (JObj clouds) /\
    d = {| o_city := city;
           o_temperature := rounded;
           o_humidity := humidity;
           o_pressure := pressure;
           o_description := description;
           o_wind_speed := default (JInt 0) (wind !! "speed");
           o_clouds := default (JInt 0) (clouds !! "all");
           o_timestamp := t |}.
Proof.
  split.
  - intros (data & -> & Hb)%fetch_city_weather_Some.
    unfold build_observation in Hb.
    apply bind_Ok in Hb as (main1 & Hmain1 & Hb).
    apply bind_Ok in Hb as (temp & Htemp & Hb).
    apply bind_Ok in Hb as (rounded & Hrounded & Hb).
    apply bind_Ok in Hb as (main2 & Hmain2 & Hb).
    apply bind_Ok in Hb as (humidity & Hhum & Hb).
    apply bind_Ok in Hb as (main3 & Hmain3 & Hb).
    apply bind_Ok in Hb as (pressure & Hpres & Hb).
    apply bind_Ok in Hb as (weather & Hweather & Hb).
    apply bind_Ok in Hb as (w0 & Hw0 & Hb).
    apply bind_Ok in Hb as (description & Hdesc & Hb).
    apply bind_Ok in Hb as (wind & Hwind & Hb).
    apply bind_Ok in Hb as (speed & Hspeed & Hb).
    apply bind_Ok in Hb as (clouds & Hclouds & Hb).
    apply bind_Ok in Hb as (all & Hall & Hb).
    injection Hb as <-.
    apply getitem_Ok in Hmain1 as (top & -> & Hmain1).
    apply getitem_Ok in Hmain2 as (top2 & [= <-] & Hmain2).
    apply getitem_Ok in Hmain3 as (top3 & [= <-] & Hmain3).
    rewrite Hmain1 in Hmain2, Hmain3.
    injection Hmain2 as <-. injection Hmain3 as <-.
    apply getitem_Ok in Htemp as (main & -> & Htemp).
    apply getitem_Ok in Hhum as (main' & [= <-] & Hhum).
    apply getitem_Ok in Hpres as (main' & [= <-] & Hpres).
    apply getitem_Ok in Hweather as (top' & [= <-] & Hweather).
    destruct (getitem0_dict _ _ _ _ Hw0 Hdesc) as (weather0 & others & -> & -> & Hd).
    apply getitem_Ok in Hwind as (top' & [= <-] & Hwind).
    apply getitem_Ok in Hclouds as (top' & [= <-] & Hclouds).
    apply get_dict in Hspeed as (windm & -> & ->).
    apply get_dict in Hall as (cloudsm & -> & ->).
    exists top, main, temp, rounded, humidity, pressure, weather0, others,
      description, windm, cloudsm.
    repeat split; assumption.
  - intros (top & main & temp & rounded & humidity & pressure & weather0 & others
            & description & wind & clouds
            & -> & Hmain & Htemp & Hround & Hhum & Hpres & Hweather & Hdesc
            & Hwind & Hclouds & ->).
    unfold fetch_city_weather. simpl. unfold build_observation. simpl.
    rewrite Hmain. simpl. rewrite Htemp. simpl. rewrite Hround. simpl.
    rewrite Hhum. simpl. rewrite Hpres. simpl. rewrite Hweather. simpl.
    rewrite Hdesc. simpl. rewrite Hwind. simpl. rewrite Hclouds. simpl.
    reflexivity.
Qed.

(** [fetch_city_weather] returns an observation exactly for a 200 reply whose
    JSON body is a dict with [main.temp] (a number), [main.humidity],
    [main.pressure], a list [weather] starting with a dict that has
    [description], and dicts [wind] and [clouds]; the observation is then
    made of these entries.  Any other reply gives [None]. *)
Theorem fetch_succeeds_iff_payload_complete
    (city : string) (reply : http_reply) (t : Q) (d : Observation) :
  fetch_city_weather city reply t = Some d <->
  exists top main temp rounded humidity pressure weather0 others description
         wind clouds,
    reply = Response 200 (Ok (JObj top)) /\
    top !! "main" = Some (JObj main) /\
    main !! "temp" = Some temp /\
    round1 temp = Ok rounded /\
    main !! "humidity" = Some humidity /\
    main !! "pressure" = Some pressure /\
    top !! "weather" = Some (JArr (JObj weather0 :: others)) /\
    weather0 !! "description" = Some description /\
    top !! "wind" = Some (JObj wind) /\
    top !! "clouds" = Some (JObj clouds) /\
    d = {| o_city := city;
           o_temperature := rounded;
           o_humidity := humidity;
           o_pressure := pressure;
           o_description := description;
           o_wind_speed := default (JInt 0) (wind !! "speed");
           o_clouds := default (JInt 0) (clouds !! "all");
           o_timestamp := t |}.
Proof. apply fetch_city_weather_payload. Qed.

(** ** [fetch_all_cities_async]: order and isolation *)

Lemma fetch_all_omap (cities : list string) (net : nat -> http_reply) (clock : nat -> Q) :
  fetch_all_cities_async cities net clock
  = omap id (imap (fun i city => fetch_city_weather city (net i) (clock i)) cities).
Proof. unfold fetch_all_cities_async. now rewrite collect_spec. Qed.

(** The result of a run over [before ++ city :: after] is the result for
    [before], then the observation of [city] if its task returned one, then
    the result for [after]: a failing task removes nothing but its own
    observation and changes no other. *)
Theorem fetch_all_isolates_each_task
    (before after : list string) (city : string)
    (net : nat -> http_reply) (clock : nat -> Q) :
  fetch_all_cities_async (before ++ city :: after) net clock
  = (fetch_all_cities_async before net clock
     ++ option_list (fetch_city_weather city (net (length before))
                       (clock (length before)))
     ++ fetch_all_cities_async after
          (fun i => net (length before + S i)%nat)
          (fun i => clock (length before + S i)%nat))%list.
Proof.
  rewrite !fetch_all_omap, imap_app, omap_app. f_equal.
  simpl. rewrite Nat.add_0_r.
  destruct (fetch_city_weather city (net (length before)) (clock (length before)));
    simpl; reflexivity.
Qed.

Lemma omap_imap_keys (cities : list string) (f : nat -> string -> option Observation) :
  (forall i city d, f i city = Some d -> o_city d = city) ->
  (o_city <$> omap id (imap f cities)) `sublist_of` cities.
Proof.
  revert f. induction cities as [|c rest IH]; intros f Hf; simpl.
  - constructor.
  - destruct (f 0%nat c) as [d|] eqn:E; simpl.
    + rewrite (Hf _ _ _ E). apply sublist_skip.
      apply IH. intros i city d'. apply Hf.
    + apply sublist_cons. apply IH. intros i city d'. apply Hf.
Qed.

(** The keys of the returned observations are a subsequence of the input
    keys: nothing is reordered, duplicated or invented, and there are at most
    as many observations as keys. *)
Theorem fetch_all_keys_are_a_subsequence
    (cities : list string) (net : nat -> http_reply) (clock : nat -> Q) :
  (o_city <$> fetch_all_cities_async cities net clock) `sublist_of` cities
  /\ (length (fetch_all_cities_async cities net clock) <= length cities)%nat.
Proof.
  assert (H : (o_city <$> fetch_all_cities_async cities net clock) `sublist_of` cities).
  { rewrite fetch_all_omap. apply omap_imap_keys.
    intros i city d. apply fetch_city_weather_city. }
  split; [exact H|].
  apply sublist_length in H. now rewrite length_fmap in H.
Qed.

(** When every task returns an observation, the result has exactly the input
    keys, in the input order. *)
Theorem fetch_all_complete_when_all_succeed
    (cities : list string) (net : nat -> http_reply) (clock : nat -> Q) :
  (forall i city, cities !! i = Some city ->
     fetch_city_weather city (net i) (clock i) <> None) ->
  o_city <$> fetch_all_cities_async cities net clock = cities.
Proof.
  rewrite fetch_all_omap. revert net clock.
  induction cities as [|c rest IH]; intros net clock Hall; simpl; [reflexivity|].
  destruct (fetch_city_weather c (net 0%nat) (clock 0%nat)) as [d|] eqn:E.
  - simpl. rewrite (fetch_city_weather_city _ _ _ _ E). f_equal.
    apply (IH (fun i => net (S i)) (fun i => clock (S i))).
    intros i city Hi. apply (Hall (S i) city Hi).
  - exfalso. now apply (Hall 0%nat c).
Qed.

Lemma fetch_all_complete_when_all_succeed_witness :
  o_city <$> fetch_all_cities_async ["Moscow,ru"]
               (fun _ => Response 200 (Ok payload_without_speed_and_all))
               (fun _ => 0%Q)
  = ["Moscow,ru"].
Proof.
  apply fetch_all_complete_when_all_succeed.
  intros [|i] city Hi; [|discriminate Hi].
  vm_compute. discriminate.
Defined.

(** ** [save_weather_data]: what it writes *)

Lemma round1_idempotent (v r : pyval) : round1 v = Ok r -> round1 r = Ok r.
Proof.
  destruct v as [|b|n|q|s|l|m]; simpl; try discriminate; intros [= <-];
    try reflexivity.
  simpl. do 3 f_equal.
  generalize (round_half_even (q * 10)). intros n.
  unfold round_half_even. cbn [Qnum Qden Qmult].
  change (Z.pos (10 * 1)) with 10.
  rewrite Z.div_mul, Z.mod_mul by discriminate. reflexivity.
Qed.

(** A call that reports [saved] went through [round] and [commit] and
    appended exactly the row the database stored for its arguments. *)
Lemma save_weather_data_saved
    (city : string) (t h p d ws cl : pyval) (min_age_minutes : option Z)
    (skip_if_fresh : bool) (e : Env) (tbl tbl' : Table) (r : SaveResult) :
  save_weather_data city t h p d ws cl min_age_minutes skip_if_fresh e tbl
    = (Ok r, tbl') ->
  saved r = true ->
  exists rounded row,
    round1 t = Ok rounded /\ commit_ok e = true /\ session_ok e = true /\
    stored_as e (inserted_row city rounded h p d ws cl e) row /\
    tbl' = (tbl ++ [row])%list.
Proof.
  rewrite save_weather_data_try.
  destruct (resolve_min_age min_age_minutes e) as [m|x]; [|discriminate].
  unfold get_session. destruct (session_ok e); [|discriminate].
  assert (Hinsert :
    match save_try city t h p d ws cl m false e tbl with
    | Ok (result, tbl') => (Ok result, tbl')
    | Raise x => (Ok (error_result city x), tbl)
    end = (Ok r, tbl') ->
    saved r = true ->
    exists rounded row,
      round1 t = Ok rounded /\ commit_ok e = true /\ true = true /\
      stored_as e (inserted_row city rounded h p d ws cl e) row /\
      tbl' = (tbl ++ [row])%list).
  { rewrite save_try_insert.
    destruct (round1 t) as [rounded|x]; cbn [bind];
      [|intros [= <- <-]; discriminate].
    destruct (db_insert e _) as [row|] eqn:Hins;
      [|intros [= <- <-]; discriminate].
    apply db_insert_Some in Hins as [Hc Hst].
    intros [= <- <-] _. eauto 8. }
  destruct skip_if_fresh; [|exact Hinsert].
  destruct (is_data_fresh city m e tbl) as [[[[|] last] a]|x] eqn:Hf.
  - unfold save_try. rewrite Hf. cbn [bind]. intros [= <- <-]. discriminate.
  - rewrite (save_try_not_fresh city t h p d ws cl m true e tbl) by eauto.
    exact Hinsert.
  - unfold save_try. rewrite Hf. cbn [bind]. intros [= <- <-]. discriminate.
Qed.

(** The row stored for a fetched observation is made of the observation's own
    values: the second rounding, in [save_weather_data], changes nothing and
    cannot fail; the row holds the key, the id and the timestamp the database
    assigns, and in each other column the database's conversion of the
    observation's value to the type of the column. *)
Theorem stored_row_is_the_fetched_observation
    (city : string) (reply : http_reply) (t : Q) (d : Observation)
    (min_age_minutes : option Z) (skip_if_fresh : bool) (e : Env)
    (tbl tbl' : Table) (r : SaveResult) :
  fetch_city_weather city reply t = Some d ->
  save_weather_data (o_city d) (o_temperature d) (o_humidity d) (o_pressure d)
    (o_description d) (o_wind_speed d) (o_clouds d)
    min_age_minutes skip_if_fresh e tbl = (Ok r, tbl') ->
  saved r = true ->
  round1 (o_temperature d) = Ok (o_temperature d) /\
  exists row,
    tbl' = (tbl ++ [row])%list /\
    w_id row = db_next_id e /\
    w_city row = city /\
    w_created_at row = Some {| wall := db_now e; utcoffset := Some 0 |} /\
    store e SqlFloat false (o_temperature d) = Some (w_temperature row) /\
    store e SqlInteger true (o_humidity d) = Some (w_humidity row) /\
    store e SqlInteger true (o_pressure d) = Some (w_pressure row) /\
    store e (SqlString 200) true (o_description d) = Some (w_description row) /\
    store e SqlFloat true (o_wind_speed d) = Some (w_wind_speed row) /\
    store e SqlInteger true (o_clouds d) = Some (w_clouds row).
Proof.
  intros Hfetch Hsave Hsaved.
  assert (Hround : round1 (o_temperature d) = Ok (o_temperature d)).
  { apply fetch_city_weather_payload in Hfetch
      as (top & main & temp & rounded & hum & pres & w0 & others & desc & wind
          & clouds & _ & _ & _ & Hr & _ & _ & _ & _ & _ & _ & ->).
    simpl. eapply round1_idempotent; eauto. }
  split; [exact Hround|].
  destruct (save_weather_data_saved _ _ _ _ _ _ _ _ _ _ _ _ _ Hsave Hsaved)
    as (rounded & row & Hr & _ & _ & Hst & ->).
  rewrite Hround in Hr. injection Hr as <-.
  exists row. split; [reflexivity|].
  rewrite (fetch_city_weather_city _ _ _ _ Hfetch) in Hst. exact Hst.
Qed.

(** A reply for Moscow with a humidity of 40.5, a pressure of 1013.7 and a
    wind speed of 3: the Integer columns of the stored row hold 41 and 1014,
    the Float column [wind_speed] holds 3.0. *)
Lemma stored_row_is_the_fetched_observation_witness :
  exists row,
    save_weather_data "Moscow,ru" (JFloat (Qmake 216 10)) (JFloat (Qmake 405 10))
      (JFloat (Qmake 10137 10)) (JStr "clear sky") (JInt 3) (JInt 0)
      None true (env_ok minute) []
    = (Ok {| saved := true; skipped := false; reason := "saved";
             age_minutes := None; message := MsgSaved "Moscow,ru" |},
       ([] ++ [row])%list) /\
    w_humidity row = JInt 41 /\ w_pressure row = JInt 1014 /\
    exists q, w_wind_speed row = JFloat q /\ (q == 3)%Q.
Proof.
  set (reply :=
    Response 200 (Ok (JObj (<["main" := JObj (<["temp" := JFloat (Qmake 2155 100)]>
                                              (<["humidity" := JFloat (Qmake 405 10)]>
                                              (<["pressure" := JFloat (Qmake 10137 10)]> ∅)))]>
                           (<["weather" := JArr [JObj (<["description" := JStr "clear sky"]> ∅)]]>
                           (<["wind" := JObj (<["speed" := JInt 3]> ∅)]>
                           (<["clouds" := JObj ∅]> ∅))))))).
  set (d := {| o_city := "Moscow,ru";
               o_temperature := JFloat (Qmake 216 10);
               o_humidity := JFloat (Qmake 405 10);
               o_pressure := JFloat (Qmake 10137 10);
               o_description := JStr "clear sky";
               o_wind_speed := JInt 3;
               o_clouds := JInt 0;
               o_timestamp := 0%Q |}).
  set (out := save_weather_data (o_city d) (o_temperature d) (o_humidity d)
                (o_pressure d) (o_description d) (o_wind_speed d) (o_clouds d)
                None true (env_ok minute) []).
  assert (Hfetch : fetch_city_weather "Moscow,ru" reply 0%Q = Some d)
    by (vm_compute; reflexivity).
  assert (Hsave : out = (Ok {| saved := true; skipped := false; reason := "saved";
                               age_minutes := None;
                               message := MsgSaved "Moscow,ru" |}, snd out))
    by (vm_compute; reflexivity).
  destruct (stored_row_is_the_fetched_observation "Moscow,ru" reply 0%Q d None true
              (env_ok minute) [] (snd out) _ Hfetch Hsave eq_refl)
    as (_ & row & Hrow & _ & _ & _ & _ & Hh & Hp & _ & Hw & _).
  assert (Eh : Some (JInt 41) = Some (w_humidity row))
    by (rewrite <- Hh; vm_compute; reflexivity).
  assert (Ep : Some (JInt 1014) = Some (w_pressure row))
    by (rewrite <- Hp; vm_compute; reflexivity).
  assert (Ew : Some (JFloat (to_double (inject_Z 3))) = Some (w_wind_speed row))
    by (rewrite <- Hw; reflexivity).
  injection Eh as Eh. injection Ep as Ep. injection Ew as Ew.
  exists row. split; [|split; [|split]].
  - change (out = (Ok {| saved := true; skipped := false; reason := "saved";
                         age_minutes := None;
                         message := MsgSaved "Moscow,ru" |}, ([] ++ [row])%list)).
    rewrite Hsave. f_equal. exact Hrow.
  - symmetry. exact Eh.
  - symmetry. exact Ep.
  - exists (to_double (inject_Z 3)). split; [symmetry; exact Ew|].
    vm_compute. reflexivity.
Defined.

(** [save_weather_data] only ever appends: the table it leaves starts with
    the table it found, holds at most one more row, a row of the city it was
    called for, and it grew exactly when the result says [saved]. *)
Theorem save_weather_data_only_appends
    (city : string) (t h p d ws cl : pyval) (min_age_minutes : option Z)
    (skip_if_fresh : bool) (e : Env) (tbl : Table) :
  let out := save_weather_data city t h p d ws cl min_age_minutes skip_if_fresh e tbl in
  tbl `prefix_of` snd out
  /\ (length (snd out) <= S (length tbl))%nat
  /\ (forall row, row ∈ snd out -> row ∈ tbl \/ w_city row = city)
  /\ ((exists r, fst out = Ok r /\ saved r = true)
      <-> length (snd out) = S (length tbl)).
Proof.
  intros out. subst out.
  destruct (save_weather_data_cases city t h p d ws cl min_age_minutes
              skip_if_fresh e tbl)
    as [(x & ->) | [(r & -> & Hr) | (r & rounded & stored & -> & Hr & _ & Hst)]];
    simpl.
  - repeat split; auto.
    + intros (r & Hr & _). discriminate.
    + lia.
  - repeat split; auto.
    + intros (r' & [= <-] & Hr'). congruence.
    + lia.
  - repeat split.
    + now apply prefix_app_r.
    + rewrite length_app. simpl. lia.
    + intros row [Hrow | Hrow%list_elem_of_singleton]%elem_of_app; [auto|].
      right. subst row. exact (proj1 (proj2 Hst)).
    + intros _. rewrite length_app. simpl. lia.
    + intros _. eauto.
Qed.

(** ** The freshness window *)

(** What [first_desc] returns is in the list and no row of the list sorts
    strictly before it. *)
Lemma first_desc_is_first (rows : list WeatherData) (r : WeatherData) :
  first_desc rows = Some r ->
  r ∈ rows /\
  forall x, x ∈ rows -> sorts_before (w_created_at x) (w_created_at r) = false.
Proof.
  revert r. induction rows as [|a rest IH]; intros r; simpl; [discriminate|].
  destruct (first_desc rest) as [r'|] eqn:Hrest.
  - destruct (IH r' eq_refl) as (Hin & Hmax).
    destruct (sorts_before (w_created_at r') (w_created_at a)) eqn:Hsb;
      intros [= <-].
    + split; [now right|]. intros x [-> | Hx]%elem_of_cons; [|now apply Hmax].
      destruct (w_created_at r') as [c'|], (w_created_at a) as [ca|];
        simpl in *; try discriminate; try reflexivity. lia.
    + split; [left|]. intros x [-> | Hx]%elem_of_cons.
      * destruct (w_created_at a) as [ca|]; simpl; [lia | reflexivity].
      * specialize (Hmax x Hx).
        destruct (w_created_at x) as [cx|], (w_created_at r') as [c'|],
          (w_created_at a) as [ca|];
          simpl in *; try discriminate; try reflexivity. lia.
  - apply first_desc_None in Hrest. subst rest. intros [= <-].
    split; [left|]. intros x [-> | Hx]%elem_of_cons; [|inversion Hx].
    destruct (w_created_at a) as [c|]; simpl; [lia | reflexivity].
Qed.

(** The record returned for a key is a stored row of that key, and it is the
    most recent one: if it carries a timestamp, every row of the key carries
    one, none later than its own. *)
Theorem last_record_is_the_most_recent_of_the_key
    (city : string) (e : Env) (tbl : Table) (r : WeatherData) :
  get_last_weather_record city e tbl = Ok (Some r) ->
  r ∈ tbl /\ w_city r = city /\
  forall c, w_created_at r = Some c ->
    forall row, row ∈ tbl -> w_city row = city ->
      exists c', w_created_at row = Some c' /\ instant c' <= instant c.
Proof.
  intros (_ & _ & Hfirst)%get_last_weather_record_Some.
  apply first_desc_is_first in Hfirst as ([Hcity Hin]%list_elem_of_filter & Hmax).
  repeat split; try assumption.
  intros c Hc row Hrow Hrc.
  assert (Hrow' : row ∈ filter (fun r => w_city r = city) tbl).
  { apply list_elem_of_filter. auto. }
  specialize (Hmax row Hrow'). rewrite Hc in Hmax.
  destruct (w_created_at row) as [c'|]; simpl in Hmax; [|discriminate].
  exists c'. split; [reflexivity | lia].
Qed.

Lemma last_record_is_the_most_recent_of_the_key_witness :
  moscow_row (Some at_epoch) ∈ [moscow_row (Some at_epoch)] /\
  w_city (moscow_row (Some at_epoch)) = "Moscow,ru" /\
  exists c', w_created_at (moscow_row (Some at_epoch)) = Some c' /\
             instant c' <= instant at_epoch.
Proof.
  destruct (last_record_is_the_most_recent_of_the_key "Moscow,ru" (env_ok minute)
              [moscow_row (Some at_epoch)] (moscow_row (Some at_epoch)) eq_refl)
    as (Hin & Hcity & Hmax).
  split; [exact Hin|]. split; [exact Hcity|].
  apply (Hmax at_epoch eq_refl (moscow_row (Some at_epoch)) Hin Hcity).
Defined.

(** Edge cases of the window.  A most recent row stamped later than the
    gate's clock (the database clock runs ahead) is fresh for every
    non-negative threshold; with a threshold of zero or less, a row not
    stamped in the future is never fresh. *)
Theorem window_edge_cases
    (city : string) (m : Z) (e : Env) (tbl : Table)
    (r : WeatherData) (created : datetime) :
  get_last_weather_record city e tbl = Ok (Some r) ->
  w_created_at r = Some created ->
  (now_utc e < instant created -> 0 <= m ->
     exists a, is_data_fresh city m e tbl = Ok (true, Some r, Some a))
  /\
  (instant created <= now_utc e -> m <= 0 ->
     exists a, is_data_fresh city m e tbl = Ok (false, Some r, Some a)).
Proof.
  intros Hl Hc. rewrite (is_data_fresh_record city m e tbl r created Hl Hc).
  unfold record_age.
  destruct (measured_age_sign (now_utc e - instant created)) as [Hneg Hpos].
  split; intros H1 H2.
  - assert (E : Qltb (float_div (total_seconds (now_utc e - instant created)) 60)
                  (inject_Z m) = true).
    { apply Qltb_lt. apply Qlt_le_trans with 0%Q; [apply Hneg; lia|].
      unfold Qle. simpl. lia. }
    rewrite E. eauto.
  - assert (E : Qltb (float_div (total_seconds (now_utc e - instant created)) 60)
                  (inject_Z m) = false).
    { apply Qltb_ge. apply Qle_trans with 0%Q; [|apply Hpos; lia].
      unfold Qle. simpl. lia. }
    rewrite E. eauto.
Qed.

Lemma window_edge_cases_witness :
  (exists a, is_data_fresh "Moscow,ru" 0 (env_ok (-1)) [moscow_row (Some at_epoch)]
             = Ok (true, Some (moscow_row (Some at_epoch)), Some a))
  /\
  (exists a, is_data_fresh "Moscow,ru" 0 (env_ok minute) [moscow_row (Some at_epoch)]
             = Ok (false, Some (moscow_row (Some at_epoch)), Some a)).
Proof.
  split.
  - refine (proj1 (window_edge_cases "Moscow,ru" 0 (env_ok (-1))
              [moscow_row (Some at_epoch)] (moscow_row (Some at_epoch)) at_epoch
              eq_refl eq_refl) _ _).
    + reflexivity.
    + discriminate.
  - refine (proj2 (window_edge_cases "Moscow,ru" 0 (env_ok minute)
              [moscow_row (Some at_epoch)] (moscow_row (Some at_epoch)) at_epoch
              eq_refl eq_refl) _ _).
    + discriminate.
    + discriminate.
Defined.

Lemma recent_row_of_key_is_fresh (city : string) (m : Z) (e : Env) (tbl : Table)
    (r0 : WeatherData) (c0 : datetime) :
  0 <= m <= 50000000 ->
  read_session_ok e = true -> query_ok e = true ->
  (forall r, r ∈ tbl -> w_city r = city -> w_created_at r <> None) ->
  r0 ∈ tbl -> w_city r0 = city -> w_created_at r0 = Some c0 ->
  now_utc e - instant c0 < m * minute ->
  exists r a, is_data_fresh city m e tbl = Ok (true, Some r, Some a).
Proof.
  intros Hm Hs Hq Hall Hin Hcity Hc0 Hage.
  destruct (first_desc_newest (filter (fun r => w_city r = city) tbl))
    with (r0 := r0) (c0 := c0) as (r & c & Hr & _ & Hc & Hle).
  - intros r [Hrc Hr]%list_elem_of_filter. now apply Hall.
  - apply list_elem_of_filter. auto.
  - assumption.
  - assert (Hl : get_last_weather_record city e tbl = Ok (Some r)).
    { unfold get_last_weather_record, get_session. now rewrite Hs, Hq, Hr. }
    rewrite (is_data_fresh_record city m e tbl r c Hl Hc).
    unfold record_age. rewrite measured_age_below by lia. eauto.
Qed.

(** The deduplication guarantee of one call, for a threshold between 0 and
    fifty million minutes.  With the gate on, the store readable and every
    row of the key timestamped, a row is written only when every stored row
    of the key is at least [min_age_minutes] old, in exact time: the
    rounding of the age to a double never lets a younger row through. *)
Theorem saved_only_when_every_row_is_old
    (city : string) (t h p d ws cl : pyval) (min_age_minutes : option Z) (m : Z)
    (e : Env) (tbl tbl' : Table) (r : SaveResult) :
  resolve_min_age min_age_minutes e = Ok m ->
  0 <= m <= 50000000 ->
  read_session_ok e = true -> query_ok e = true ->
  (forall row, row ∈ tbl -> w_city row = city -> w_created_at row <> None) ->
  save_weather_data city t h p d ws cl min_age_minutes true e tbl = (Ok r, tbl') ->
  saved r = true ->
  forall row c, row ∈ tbl -> w_city row = city -> w_created_at row = Some c ->
    m * minute <= now_utc e - instant c.
Proof.
  intros Hm Hbound Hs Hq Hall Hsave Hsaved row c Hrow Hcity Hc.
  destruct (Z.le_gt_cases (m * minute) (now_utc e - instant c)) as [|Hyoung];
    [assumption|exfalso].
  destruct (recent_row_of_key_is_fresh city m e tbl row c Hbound Hs Hq Hall Hrow
              Hcity Hc)
    as (r' & a & Hf); [lia|].
  unfold save_weather_data in Hsave. rewrite Hm in Hsave. simpl in Hsave.
  destruct (get_session (session_ok e)); simpl in Hsave; [|discriminate].
  unfold save_try in Hsave. rewrite Hf in Hsave. simpl in Hsave.
  injection Hsave as <- <-. discriminate.
Qed.

Lemma saved_only_when_every_row_is_old_witness :
  30 * minute <= now_utc (env_ok (30 * minute)) - instant at_epoch.
Proof.
  apply (saved_only_when_every_row_is_old "Moscow,ru" (JFloat (Qmake 20 1))
           (JInt 40) (JInt 1013) (JStr "clear sky") JNull JNull None 30
           (env_ok (30 * minute)) [moscow_row (Some at_epoch)]
           ([moscow_row (Some at_epoch)] ++
            [inserted_row "Moscow,ru" (JFloat (Qmake 200 10)) (JInt 40)
               (JInt 1013) (JStr "clear sky") JNull JNull
               (env_ok (30 * minute))])%list
           {| saved := true; skipped := false; reason := "saved";
              age_minutes := None; message := MsgSaved "Moscow,ru" |})
    with (row := moscow_row (Some at_epoch)).
  - reflexivity.
  - lia.
  - reflexivity.
  - reflexivity.
  - intros row [-> | Hrow]%elem_of_cons _; [discriminate | inversion Hrow].
  - vm_compute. reflexivity.
  - reflexivity.
  - left.
  - reflexivity.
  - reflexivity.
Defined.

(** ** Insert, then read back *)

Lemma first_desc_snoc_newest (rows : list WeatherData) (x : WeatherData) (cx : datetime) :
  w_created_at x = Some cx ->
  (forall row, row ∈ rows ->
     exists c, w_created_at row = Some c /\ instant c < instant cx) ->
  first_desc (rows ++ [x]) = Some x.
Proof.
  intros Hx. induction rows as [|a rest IH]; intros Hall; simpl; [reflexivity|].
  rewrite IH by (intros row Hrow; apply Hall; now right).
  destruct (Hall a) as (ca & Hca & Hlt); [left|].
  rewrite Hx, Hca. simpl.
  destruct (Z.ltb_spec (instant ca) (instant cx)); [reflexivity | lia].
Qed.

(** Round trip.  After a call that reports [saved], made when every stored
    row of the key is timestamped earlier than the database clock, the most
    recent record of the key is the row just written: it carries the key,
    the id and the timestamp assigned by the database, and each other column
    holds the database's conversion of the value passed (of the rounded
    temperature), so that what is read back is what the database made of
    the arguments, not the arguments themselves. *)
Theorem saved_row_is_read_back
    (city : string) (t h p d ws cl : pyval) (min_age_minutes : option Z)
    (skip_if_fresh : bool) (e e2 : Env) (tbl tbl' : Table) (r : SaveResult) :
  save_weather_data city t h p d ws cl min_age_minutes skip_if_fresh e tbl
    = (Ok r, tbl') ->
  saved r = true ->
  (forall row, row ∈ tbl -> w_city row = city ->
     exists c, w_created_at row = Some c /\ instant c < db_now e) ->
  read_session_ok e2 = true -> query_ok e2 = true ->
  exists rounded row,
    round1 t = Ok rounded /\
    tbl' = (tbl ++ [row])%list /\
    get_last_weather_record city e2 tbl' = Ok (Some row) /\
    w_id row = db_next_id e /\
    w_city row = city /\
    w_created_at row = Some {| wall := db_now e; utcoffset := Some 0 |} /\
    store e SqlFloat false rounded = Some (w_temperature row) /\
    store e SqlInteger true h = Some (w_humidity row) /\
    store e SqlInteger true p = Some (w_pressure row) /\
    store e (SqlString 200) true d = Some (w_description row) /\
    store e SqlFloat true ws = Some (w_wind_speed row) /\
    store e SqlInteger true cl = Some (w_clouds row).
Proof.
  intros Hsave Hsaved Hold Hs Hq.
  destruct (save_weather_data_saved _ _ _ _ _ _ _ _ _ _ _ _ _ Hsave Hsaved)
    as (rounded & row & Hr & _ & _ & Hst & ->).
  exists rounded, row. split; [assumption|]. split; [reflexivity|].
  split; [|exact Hst].
  destruct Hst as (_ & Hcity & Hcreated & _).
  cbn [inserted_row w_city w_created_at] in Hcity, Hcreated.
  unfold get_last_weather_record, get_session. rewrite Hs, Hq. cbn [bind].
  rewrite (filter_app (fun r0 => w_city r0 = city)).
  rewrite (filter_cons_True (fun r0 => w_city r0 = city)) by exact Hcity.
  rewrite filter_nil.
  erewrite first_desc_snoc_newest; [reflexivity | exact Hcreated |].
  intros row0 [Hcity0 Hrow0]%list_elem_of_filter.
  destruct (Hold row0 Hrow0 Hcity0) as (c & Hc & Hlt).
  exists c. split; [assumption|]. unfold instant at 2. simpl. lia.
Qed.

(** A call for Moscow thirty minutes after the stored row, with a humidity
    of 40.5 and a wind speed of 3: the record read back holds 41 and 3.0. *)
Lemma saved_row_is_read_back_witness :
  exists row,
    save_weather_data "Moscow,ru" (JFloat (Qmake 20 1)) (JFloat (Qmake 405 10))
      (JInt 1013) (JStr "clear sky") (JInt 3) JNull None true
      (env_ok (30 * minute)) [moscow_row (Some at_epoch)]
    = (Ok {| saved := true; skipped := false; reason := "saved";
             age_minutes := None; message := MsgSaved "Moscow,ru" |},
       ([moscow_row (Some at_epoch)] ++ [row])%list) /\
    get_last_weather_record "Moscow,ru" (env_ok (31 * minute))
      ([moscow_row (Some at_epoch)] ++ [row])%list
    = Ok (Some row) /\
    w_humidity row = JInt 41 /\
    (exists q, w_wind_speed row = JFloat q /\ (q == 3)%Q) /\
    w_clouds row = JNull.
Proof.
  set (out := save_weather_data "Moscow,ru" (JFloat (Qmake 20 1))
                (JFloat (Qmake 405 10)) (JInt 1013) (JStr "clear sky") (JInt 3)
                JNull None true (env_ok (30 * minute)) [moscow_row (Some at_epoch)]).
  assert (Hsave : out = (Ok {| saved := true; skipped := false; reason := "saved";
                               age_minutes := None;
                               message := MsgSaved "Moscow,ru" |}, snd out))
    by (vm_compute; reflexivity).
  destruct (saved_row_is_read_back "Moscow,ru" (JFloat (Qmake 20 1))
              (JFloat (Qmake 405 10)) (JInt 1013) (JStr "clear sky") (JInt 3)
              JNull None true (env_ok (30 * minute)) (env_ok (31 * minute))
              [moscow_row (Some at_epoch)] (snd out) _ Hsave eq_refl)
    as (rounded & row & _ & Hrow & Hread & _ & _ & _ & _ & Hh & _ & _ & Hw & Hc).
  - intros row [-> | Hrow]%elem_of_cons _; [|inversion Hrow].
    exists at_epoch. split; reflexivity.
  - reflexivity.
  - reflexivity.
  - assert (Eh : Some (JInt 41) = Some (w_humidity row))
      by (rewrite <- Hh; vm_compute; reflexivity).
    assert (Ew : Some (JFloat (to_double (inject_Z 3))) = Some (w_wind_speed row))
      by (rewrite <- Hw; reflexivity).
    assert (Ec : Some JNull = Some (w_clouds row))
      by (rewrite <- Hc; reflexivity).
    injection Eh as Eh. injection Ew as Ew. injection Ec as Ec.
    exists row. rewrite <- Hrow. split; [exact Hsave|]. split; [exact Hread|].
    split; [symmetry; exact Eh|]. split; [|symmetry; exact Ec].
    exists (to_double (inject_Z 3)). split; [symmetry; exact Ew|].
    vm_compute. reflexivity.
Defined.

(** ** [get_recent_weather] and [show_recent_data] *)

Lemma not_older_trans (a b c : WeatherData) :
  not_older a b -> not_older b c -> not_older a c.
Proof.
  unfold not_older.
  destruct (w_created_at a), (w_created_at b), (w_created_at c); simpl;
    try discriminate; try reflexivity.
  intros H1 H2. apply Z.ltb_ge. apply Z.ltb_ge in H1, H2. lia.
Qed.

Lemma insert_desc_Permutation (r : WeatherData) (sorted : list WeatherData) :
  insert_desc r sorted ≡ₚ r :: sorted.
Proof.
  induction sorted as [|x rest IH]; simpl; [reflexivity|].
  destruct (sorts_before _ _); [|reflexivity].
  rewrite IH. apply Permutation_swap.
Qed.

Lemma order_desc_Permutation (rows : list WeatherData) : order_desc rows ≡ₚ rows.
Proof.
  induction rows as [|r rest IH]; simpl; [reflexivity|].
  now rewrite insert_desc_Permutation, IH.
Qed.

Lemma insert_desc_sorted (r : WeatherData) (sorted : list WeatherData) :
  StronglySorted not_older sorted -> StronglySorted not_older (insert_desc r sorted).
Proof.
  induction 1 as [|x rest Hrest IH Hx]; simpl.
  - repeat constructor.
  - destruct (sorts_before (w_created_at x) (w_created_at r)) eqn:Hsb.
    + constructor; [assumption|].
      rewrite Forall_forall. intros y Hy.
      rewrite insert_desc_Permutation in Hy.
      apply elem_of_cons in Hy as [-> | Hy].
      * unfold not_older.
        destruct (w_created_at x), (w_created_at r); simpl in *;
          try discriminate; try reflexivity.
        apply Z.ltb_ge. apply Z.ltb_lt in Hsb. lia.
      * rewrite Forall_forall in Hx. now apply Hx.
    + constructor; [now constructor|].
      constructor; [exact Hsb|].
      rewrite Forall_forall in Hx |- *. intros y Hy.
      eapply not_older_trans; [exact Hsb | now apply Hx].
Qed.

Lemma order_desc_sorted (rows : list WeatherData) :
  StronglySorted not_older (order_desc rows).
Proof.
  induction rows as [|r rest IH]; simpl; [constructor|].
  now apply insert_desc_sorted.
Qed.

(** With the store readable and a non-negative limit, [get_recent_weather]
    returns the first [limit] rows of a newest-first arrangement of the
    whole table: together with the rows left out they make up the table,
    and every row is at least as recent as all rows after it. *)
Theorem recent_weather_is_the_newest_rows (limit : Z) (e : Env) (tbl : Table) :
  read_session_ok e = true -> query_ok e = true -> 0 <= limit ->
  exists l rest,
    get_recent_weather limit e tbl = Ok l /\
    length l = Nat.min (Z.to_nat limit) (length tbl) /\
    (l ++ rest)%list ≡ₚ tbl /\
    StronglySorted not_older (l ++ rest)%list.
Proof.
  intros Hs Hq Hlimit.
  exists (take (Z.to_nat limit) (order_desc tbl)),
         (drop (Z.to_nat limit) (order_desc tbl)).
  split.
  - unfold get_recent_weather, get_session. rewrite Hs, Hq. simpl.
    now destruct (Z.leb_spec 0 limit); [|lia].
  - rewrite take_drop, length_take.
    rewrite (Permutation_length (order_desc_Permutation tbl)).
    split; [reflexivity|]. split.
    + apply order_desc_Permutation.
    + apply order_desc_sorted.
Qed.

Lemma recent_weather_is_the_newest_rows_witness :
  exists l rest,
    get_recent_weather 1 (env_ok minute)
      [moscow_row (Some at_epoch); moscow_row None] = Ok l /\
    length l = Nat.min (Z.to_nat 1)
                 (length [moscow_row (Some at_epoch); moscow_row None]) /\
    (l ++ rest)%list ≡ₚ [moscow_row (Some at_epoch); moscow_row None] /\
    StronglySorted not_older (l ++ rest)%list.
Proof.
  apply recent_weather_is_the_newest_rows; [reflexivity | reflexivity | lia].
Defined.

(** [show_recent_data] returns the number of rows shown, at most ten; a
    query that fails is reported as an empty database (0), and only a
    failure to open the session raises. *)
Theorem show_recent_data_count (e : Env) (tbl : Table) :
  show_recent_data e tbl
  = if read_session_ok e then
      Ok (if query_ok e then Z.min 10 (Z.of_nat (length tbl)) else 0)
    else Raise SQLAlchemyError.
Proof.
  unfold show_recent_data, get_recent_weather, get_session.
  destruct (read_session_ok e); simpl; [|reflexivity].
  destruct (query_ok e); simpl; [|reflexivity].
  rewrite length_take, (Permutation_length (order_desc_Permutation tbl)).
  f_equal. change (Z.to_nat 10) with 10%nat. lia.
Qed.

(** ** [init_db] *)

Lemma init_db_schema_after (w : InitEnv) (s : Schema) :
  fst (init_db w s) = Ok tt ->
  has_table (snd (init_db w s)) = true /\ has_index (snd (init_db w s)) = true.
Proof.
  unfold init_db. destruct s as [[|] [|]], w as [[|] [|] [|] [|]]; simpl;
    intros; split; congruence.
Qed.

(** A call of [init_db] that returns leaves both the table and the index in
    place, whatever the schema was before; a call that raises may stop half
    way, but no call ever removes the table or the index. *)
Theorem init_db_completes_the_schema (w : InitEnv) (s : Schema) :
  (fst (init_db w s) = Ok tt ->
     has_table (snd (init_db w s)) = true /\ has_index (snd (init_db w s)) = true)
  /\ (has_table s = true -> has_table (snd (init_db w s)) = true)
  /\ (has_index s = true -> has_index (snd (init_db w s)) = true).
Proof.
  split; [apply init_db_schema_after|].
  unfold init_db. destruct s as [[|] [|]], w as [[|] [|] [|] [|]]; simpl;
    split; intros; congruence.
Qed.

(** Initialisation is idempotent: after a call that returned, any later call
    that can reach the database returns as well and leaves the schema as it
    is, without having to create anything. *)
Theorem init_db_is_idempotent (w w2 : InitEnv) (s s' : Schema) :
  init_db w s = (Ok tt, s') ->
  connect_ok w2 = true -> index_query_ok w2 = true ->
  init_db w2 s' = (Ok tt, s').
Proof.
  intros H Hc Hq.
  pose proof (init_db_schema_after w s) as Hs.
  rewrite H in Hs. simpl in Hs. destruct (Hs eq_refl) as (Ht & Hi).
  unfold init_db. rewrite Hc, Hq, Ht, Hi. reflexivity.
Qed.

Lemma init_db_is_idempotent_witness :
  init_db {| connect_ok := true; create_table_ok := false;
             index_query_ok := true; create_index_ok := false |}
    {| has_table := true; has_index := true |}
  = (Ok tt, {| has_table := true; has_index := true |}).
Proof.
  apply (init_db_is_idempotent
           {| connect_ok := true; create_table_ok := true;
              index_query_ok := true; create_index_ok := true |}
           _ {| has_table := false; has_index := false |});
    reflexivity.
Defined.

(** ** [sync_parse_cities], [async_parse_cities], [compare_results] *)

Lemma sync_loop_spec (cities : list string) (net : nat -> http_reply) :
  forall (i : nat) (acc : list SyncEntry),
    sync_loop i cities net acc
    = (acc ++ omap id (imap (fun k city => sync_fetch city (net (i + k)%nat)) cities))%list.
Proof.
  induction cities as [|c rest IH]; intros i acc; simpl.
  - now rewrite app_nil_r.
  - rewrite Nat.add_0_r.
    destruct (sync_fetch c (net i)) as [entry|]; rewrite IH; simpl.
    + rewrite <- app_assoc. simpl. do 2 f_equal.
      apply (f_equal (omap id)), imap_ext. intros k x _. simpl.
      do 2 f_equal. lia.
    + f_equal. apply (f_equal (omap id)), imap_ext. intros k x _. simpl.
      do 2 f_equal. lia.
Qed.

Lemma sync_fetch_city (city : string) (reply : http_reply) (entry : SyncEntry) :
  sync_fetch city reply = Some entry -> s_city entry = city.
Proof.
  unfold sync_fetch. destruct reply as [| |status json]; try discriminate.
  destruct (status =? 200); [|discriminate].
  destruct json as [data|x]; simpl; [|discriminate].
  destruct (getitem data "main") as [main|x]; simpl; [|discriminate].
  destruct (getitem main "temp") as [temp|x]; simpl; [|discriminate].
  now intros [= <-].
Qed.

(** Whatever reply gives the asynchronous parser an observation gives the
    synchronous one an entry, whose [temp] rounds to the observation's
    temperature. *)
Lemma fetch_implies_sync_fetch (city : string) (reply : http_reply) (t : Q)
    (d : Observation) :
  fetch_city_weather city reply t = Some d ->
  exists temp, sync_fetch city reply = Some {| s_city := city; s_temp := temp |}
               /\ round1 temp = Ok (o_temperature d).
Proof.
  intros (top & main & temp & rounded & hum & pres & w0 & others & desc & wind
          & clouds & -> & Hmain & Htemp & Hr & _ & _ & _ & _ & _ & _ & ->)
         %fetch_city_weather_payload.
  exists temp. simpl. rewrite Hmain. simpl. rewrite Htemp. simpl. auto.
Qed.

Lemma omap_imap_sublist (cities : list string)
    (f : nat -> string -> option Observation) (g : nat -> string -> option SyncEntry) :
  (forall i city d, f i city = Some d -> o_city d = city) ->
  (forall i city entry, g i city = Some entry -> s_city entry = city) ->
  (forall i city d, f i city = Some d -> g i city <> None) ->
  (o_city <$> omap id (imap f cities))
    `sublist_of` (s_city <$> omap id (imap g cities)).
Proof.
  revert f g. induction cities as [|c rest IH]; intros f g Hf Hg Hfg; simpl.
  - constructor.
  - assert (Hrest : (o_city <$> omap id (imap (f ∘ S) rest))
                      `sublist_of` (s_city <$> omap id (imap (g ∘ S) rest))).
    { apply IH; intros i city x; [apply Hf | apply Hg | apply Hfg]. }
    destruct (f 0%nat c) as [d|] eqn:Ef, (g 0%nat c) as [entry|] eqn:Eg; simpl.
    + rewrite (Hf _ _ _ Ef), (Hg _ _ _ Eg). now apply sublist_skip.
    + exfalso. now apply (Hfg _ _ _ Ef).
    + now apply sublist_cons.
    + assumption.
Qed.

(** On the same replies, the cities returned by the asynchronous parser are
    a subsequence of those returned by the synchronous one: the synchronous
    parser, which reads [main.temp] only, succeeds wherever the asynchronous
    one does. *)
Theorem async_results_within_sync_results
    (cities : list string) (net : nat -> http_reply) (clock : nat -> Q)
    (elapsed elapsed' : Q) :
  (o_city <$> results (async_parse_cities cities net clock elapsed))
    `sublist_of` (s_city <$> results (sync_parse_cities cities net elapsed'))
  /\ (length (results (async_parse_cities cities net clock elapsed))
      <= length (results (sync_parse_cities cities net elapsed')))%nat.
Proof.
  assert (H : (o_city <$> results (async_parse_cities cities net clock elapsed))
    `sublist_of` (s_city <$> results (sync_parse_cities cities net elapsed'))).
  { simpl. rewrite fetch_all_omap, sync_loop_spec. simpl.
    apply omap_imap_sublist.
    - intros i city d. apply fetch_city_weather_city.
    - intros i city entry. apply sync_fetch_city.
    - intros i city d (temp & Hs & _)%fetch_implies_sync_fetch. now rewrite Hs. }
  split; [exact H|].
  apply sublist_length in H. now rewrite !length_fmap in H.
Qed.

(** [compare_results] divides by the asynchronous time without a guard: it
    raises exactly when the synchronous time is positive and the
    asynchronous time is zero; with a synchronous time that is not positive
    it reports a speed-up of 0. *)
Theorem compare_results_division {A B : Type}
    (sync_result : Report A) (async_result : Report B) :
  (compare_results sync_result async_result = inr division_by_zero
     <-> (0 < time sync_result)%Q /\ (time async_result == 0)%Q)
  /\ (forall c, compare_results sync_result async_result = inl c ->
        sync_time c = time sync_result /\ async_time c = time async_result /\
        ((time sync_result <= 0)%Q -> speedup c = 0%Q)).
Proof.
  unfold compare_results.
  destruct (Qltb 0 (time sync_result)) eqn:Hlt.
  - apply Qltb_lt in Hlt.
    destruct (Qeq_bool (time async_result) 0) eqn:Heq.
    + apply Qeq_bool_iff in Heq. split; [tauto|]. intros c. discriminate.
    + split.
      * split; [discriminate|]. intros [_ H]. apply Qeq_bool_iff in H. congruence.
      * intros c [= <-]. simpl. repeat split.
        intros Hle. exfalso. exact (Qlt_not_le _ _ Hlt Hle).
  - split.
    + split; [discriminate|]. intros [H _]. apply Qltb_lt in H. congruence.
    + intros c [= <-]. simpl. auto.
Qed.

(** ** [save_results_to_db]: what a run writes *)

Lemma save_loop_appends (envs : nat -> Env) (l : list (option Observation)) :
  forall (i : nat) (st : LoopState),
  exists rows,
    table (save_loop i l envs st) = (table st ++ rows)%list /\
    saved_count (save_loop i l envs st) = saved_count st + Z.of_nat (length rows) /\
    (w_city <$> rows) `sublist_of` (o_city <$> omap id l) /\
    Forall (fun row => w_created_at row <> None) rows.
Proof.
  induction l as [|x rest IH]; intros i st.
  - exists []. simpl. rewrite app_nil_r. repeat split; [lia | constructor | constructor].
  - change (save_loop i (x :: rest) envs st)
      with (save_loop (S i) rest envs (save_one x (envs i) st)).
    destruct (IH (S i) (save_one x (envs i) st)) as (rows & Ht & Hc & Hsub & Hts).
    destruct (save_one_cases x (envs i) st)
      as [(d & rounded & row & -> & _ & Hst & E) | (k & Hk & E)].
    + destruct Hst as (_ & Hcity & Hcreated & _).
      cbn [inserted_row w_city w_created_at] in Hcity, Hcreated.
      exists (row :: rows).
      rewrite Ht, Hc, E. simpl. rewrite <- app_assoc. simpl.
      repeat split.
      * lia.
      * rewrite Hcity. now apply sublist_skip.
      * constructor; [now rewrite Hcreated | assumption].
    + exists rows. rewrite Ht, Hc, E. simpl. repeat split; try assumption.
      destruct x as [d|]; simpl; [now apply sublist_cons | assumption].
Qed.

(** A run only appends.  The table after [save_results_to_db] is the table
    before, followed by the rows written in this run; the returned count is
    their number; their cities are a subsequence of the cities of the
    observations handed in; each carries a timestamp. *)
Theorem run_appends_rows_of_its_observations
    (xcom : option (list (option Observation))) (envs : nat -> Env) (tbl : Table) :
  exists rows,
    save_results_to_db xcom envs tbl = (Ok (Z.of_nat (length rows)), (tbl ++ rows)%list) /\
    (w_city <$> rows) `sublist_of` (o_city <$> omap id (default [] xcom)) /\
    Forall (fun row => w_created_at row <> None) rows.
Proof.
  destruct (save_loop_appends envs (default [] xcom) 0%nat (initial tbl))
    as (rows & Ht & Hc & Hsub & Hts).
  exists rows. rewrite save_results_to_db_loop, Ht, Hc. simpl. auto.
Qed.

(** With fresh data stored for the key and the gate on, a round of the loop
    leaves the table alone. *)
Lemma save_one_fresh (d : Observation) (e : Env) (st : LoopState)
    (last : option WeatherData) (a : option Q) :
  is_data_fresh (o_city d) 30 e (table st) = Ok (true, last, a) ->
  table (save_one (Some d) e st) = table st.
Proof.
  intros Hf. unfold save_one, save_weather_data. simpl.
  destruct (get_session (session_ok e)); simpl; [|reflexivity].
  unfold save_try. rewrite Hf. reflexivity.
Qed.

Section OneRun.

Variable envs : nat -> Env.
Variable tbl : Table.
Hypothesis tbl_timestamped : forall row, row ∈ tbl -> w_created_at row <> None.

(** The invariant of the loop: the rows written so far are one per key, each
    stamped in an earlier round. *)
Lemma save_loop_writes_each_key_once (l : list (option Observation)) :
  forall (i : nat) (st : LoopState) (rows0 : list WeatherData),
    table st = (tbl ++ rows0)%list ->
    (NoDup (w_city <$> rows0) /\
     forall row, row ∈ rows0 ->
       exists k, (k < i)%nat /\
         w_created_at row
         = Some {| wall := db_now (envs k); utcoffset := Some 0 |}) ->
    (forall j, (i <= j < i + length l)%nat ->
       read_session_ok (envs j) = true /\ query_ok (envs j) = true) ->
    (forall k j, (k < j < i + length l)%nat ->
       now_utc (envs j) - db_now (envs k) < 30 * minute) ->
    exists rows,
      table (save_loop i l envs st) = (tbl ++ rows)%list /\
      NoDup (w_city <$> rows).
Proof.
  induction l as [|x rest IH]; intros i st rows0 Ht [Hnd Hstamp] Hdb Hclock.
  - exists rows0. auto.
  - change (save_loop i (x :: rest) envs st)
      with (save_loop (S i) rest envs (save_one x (envs i) st)).
    simpl in Hdb, Hclock.
    destruct (save_one_cases x (envs i) st)
      as [(d & rounded & stored & -> & _ & Hst & E) | (k & Hk & E)].
    + destruct Hst as (_ & Hcity & Hcreated & _).
      cbn [inserted_row w_city w_created_at] in Hcity, Hcreated.
      apply (IH (S i) _ (rows0 ++ [stored])%list).
      * rewrite E. simpl. rewrite Ht. now rewrite <- app_assoc.
      * split.
        -- rewrite fmap_app. apply NoDup_app. split; [assumption|]. split.
           ++ intros c Hc [-> | Hin]%elem_of_cons; [|inversion Hin].
              apply list_elem_of_fmap in Hc as (row & Hrc & Hrow).
              destruct (Hstamp row Hrow) as (k & Hk & Hcr).
              destruct (Hdb i) as (Hs & Hq); [lia|].
              destruct (recent_row_of_key_is_fresh (o_city d) 30 (envs i)
                          (table st) row
                          {| wall := db_now (envs k); utcoffset := Some 0 |})
                as (r' & a & Hf); try assumption.
              ** lia.
              ** rewrite Ht. intros r [Hr | Hr]%elem_of_app _.
                 --- now apply tbl_timestamped.
                 --- destruct (Hstamp r Hr) as (k' & _ & Hk'). congruence.
              ** rewrite Ht. apply elem_of_app. now right.
              ** congruence.
              ** unfold instant. simpl. specialize (Hclock k i). lia.
              ** pose proof (save_one_fresh d (envs i) st _ _ Hf) as Hsame.
                 rewrite E in Hsame. simpl in Hsame.
                 apply (f_equal length) in Hsame.
                 rewrite length_app in Hsame. simpl in Hsame. lia.
           ++ simpl. apply NoDup_singleton.
        -- intros row [Hrow | Hrow%list_elem_of_singleton]%elem_of_app.
           ++ destruct (Hstamp row Hrow) as (k & Hk & Hcr). exists k. split; [lia | assumption].
           ++ subst row. exists i. split; [lia | exact Hcreated].
      * intros j Hj. apply Hdb. lia.
      * intros k j Hj. apply Hclock. lia.
    + apply (IH (S i) _ rows0).
      * rewrite E. simpl. assumption.
      * split; [assumption|]. intros row Hrow.
        destruct (Hstamp row Hrow) as (k' & Hk' & Hcr). exists k'. split; [lia | assumption].
      * intros j Hj. apply Hdb. lia.
      * intros k' j Hj. apply Hclock. lia.
Qed.

End OneRun.

(** Within one run a key is written at most once.  If every stored row is
    timestamped, the store is readable in every round, and each round reads
    its clock less than 30 minutes after the inserts of the rounds before,
    then the rows written by [save_results_to_db] have pairwise different
    cities, however often a city occurs in the list. *)
Theorem run_writes_each_key_once
    (weather_data_list : list (option Observation)) (envs : nat -> Env) (tbl : Table) :
  (forall row, row ∈ tbl -> w_created_at row <> None) ->
  (forall j, (j < length weather_data_list)%nat ->
     read_session_ok (envs j) = true /\ query_ok (envs j) = true) ->
  (forall k j, (k < j < length weather_data_list)%nat ->
     now_utc (envs j) - db_now (envs k) < 30 * minute) ->
  exists rows,
    snd (save_results_to_db (Some weather_data_list) envs tbl) = (tbl ++ rows)%list /\
    NoDup (w_city <$> rows).
Proof.
  intros Hts Hdb Hclock.
  rewrite save_results_to_db_loop. simpl.
  apply (save_loop_writes_each_key_once envs tbl Hts weather_data_list 0%nat
           (initial tbl) []).
  - simpl. now rewrite app_nil_r.
  - split; [constructor|]. intros row Hrow. inversion Hrow.
  - intros j Hj. apply Hdb. lia.
  - intros k j Hj. apply Hclock. lia.
Qed.

Lemma run_writes_each_key_once_witness :
  exists rows,
    snd (save_results_to_db (Some [Some moscow_obs; Some moscow_obs])
           (fun _ => env_ok minute) []) = ([] ++ rows)%list /\
    NoDup (w_city <$> rows).
Proof.
  apply (run_writes_each_key_once [Some moscow_obs; Some moscow_obs]
           (fun _ => env_ok minute) []).
  - intros row Hrow. inversion Hrow.
  - intros j _. split; reflexivity.
  - intros k j _. reflexivity.
Defined.

Example duplicate_key_is_written_once :
  exists row,
    save_results_to_db (Some [Some moscow_obs; Some moscow_obs])
      (fun _ => env_ok minute) []
    = (Ok 1, [row]) /\ w_city row = "Moscow,ru".
Proof. eexists. split; [vm_compute; reflexivity | reflexivity]. Qed.

(** ** [save_weather_task]: outcomes *)

(** Every call of the task ends in one of two ways: status [success] for the
    payload's city, the table being unchanged or longer by one row of that
    city whose [wind_speed] and [clouds] are NULL (the task does not forward
    them); or status [error] with the exception's message, the table being
    unchanged.  The answer "status error, city" of line 45 never occurs. *)
Theorem task_outcomes (weather_data : Payload) (e : Env) (tbl : Table) :
  (exists city,
     p_city weather_data = Some city /\
     fst (save_weather_task weather_data e tbl) = StatusCity "success" city /\
     (snd (save_weather_task weather_data e tbl) = tbl \/
      exists row,
        snd (save_weather_task weather_data e tbl) = (tbl ++ [row])%list /\
        w_city row = city /\ w_wind_speed row = JNull /\ w_clouds row = JNull))
  \/
  (exists x,
     save_weather_task weather_data e tbl = (StatusMessage "error" x, tbl)).
Proof.
  unfold save_weather_task.
  destruct (p_city weather_data) as [city|]; simpl; [|right; eauto].
  destruct (p_temperature weather_data) as [t|]; simpl; [|right; eauto].
  destruct (p_humidity weather_data) as [h|]; simpl; [|right; eauto].
  destruct (p_pressure weather_data) as [p|]; simpl; [|right; eauto].
  destruct (p_description weather_data) as [d|]; simpl; [|right; eauto].
  destruct (save_weather_data_cases city t h p d JNull JNull None true e tbl)
    as [(x & ->) | [(r & -> & Hr) | (r & rounded & row & -> & Hr & _ & Hst)]];
    simpl.
  - right. eauto.
  - left. exists city. auto.
  - left. exists city. split; [reflexivity|]. split; [reflexivity|].
    right. exists row. split; [reflexivity|].
    destruct Hst as (_ & Hcity & _ & _ & _ & _ & _ & Hw & Hc).
    split; [exact Hcity|].
    split; [exact (store_null e _ _ Hw) | exact (store_null e _ _ Hc)].
Qed.

(** A payload that lacks one of the five keys the task reads is answered
    with status [error] and the [KeyError] of the first missing key, in the
    order city, temperature, humidity, pressure, description; the database
    is not touched. *)
Theorem task_missing_key (weather_data : Payload) (e : Env) (tbl : Table) :
  p_city weather_data = None \/ p_temperature weather_data = None \/
  p_humidity weather_data = None \/ p_pressure weather_data = None \/
  p_description weather_data = None ->
  exists k,
    save_weather_task weather_data e tbl = (StatusMessage "error" (KeyError k), tbl) /\
    k = match p_city weather_data, p_temperature weather_data,
                p_humidity weather_data, p_pressure weather_data with
        | None, _, _, _ => "city"
        | Some _, None, _, _ => "temperature"
        | Some _, Some _, None, _ => "humidity"
        | Some _, Some _, Some _, None => "pressure"
        | Some _, Some _, Some _, Some _ => "description"
        end.
Proof.
  intros H. unfold save_weather_task.
  destruct (p_city weather_data) as [city|]; simpl; [|eauto].
  destruct (p_temperature weather_data) as [t|]; simpl; [|eauto].
  destruct (p_humidity weather_data) as [h|]; simpl; [|eauto].
  destruct (p_pressure weather_data) as [p|]; simpl; [|eauto].
  destruct (p_description weather_data) as [d|]; simpl; [|eauto].
  destruct H as [H | [H | [H | [H | H]]]]; discriminate.
Qed.

Lemma task_missing_key_witness :
  exists k,
    save_weather_task
      {| p_city := Some "Moscow,ru"; p_temperature := Some (JInt 21);
         p_humidity := None; p_pressure := None;
         p_description := Some (JStr "clear sky") |}
      (env_ok minute) []
    = (StatusMessage "error" (KeyError k), []) /\
    k = "humidity".
Proof.
  apply (task_missing_key
           {| p_city := Some "Moscow,ru"; p_temperature := Some (JInt 21);
              p_humidity := None; p_pressure := None;
              p_description := Some (JStr "clear sky") |}
           (env_ok minute) []).
  right. right. left. reflexivity.
Defined.

(** The environment variable MIN_AGE_MINUTES.  When it is set to a text that
    [int] rejects, [save_weather_data] called without a threshold raises
    that error before it opens a session, so the Celery task, which passes
    no threshold, answers every complete payload with status [error] and
    writes nothing; the loop of the DAG passes 30 itself and does not depend
    on the variable at all. *)
Theorem malformed_MIN_AGE_MINUTES
    (weather_data : Payload) (e : Env) (tbl : Table) (x : exn)
    (city : string) (temperature humidity pressure description : pyval) :
  MIN_AGE_MINUTES e = Some (Raise x) ->
  p_city weather_data = Some city ->
  p_temperature weather_data = Some temperature ->
  p_humidity weather_data = Some humidity ->
  p_pressure weather_data = Some pressure ->
  p_description weather_data = Some description ->
  save_weather_data city temperature humidity pressure description
    JNull JNull None true e tbl = (Raise x, tbl)
  /\ save_weather_task weather_data e tbl = (StatusMessage "error" x, tbl)
  /\ forall d st v, save_one d (set_MIN_AGE_MINUTES v e) st = save_one d e st.
Proof.
  intros He Hc Ht Hh Hp Hd.
  assert (Hsave : save_weather_data city temperature humidity pressure description
                    JNull JNull None true e tbl = (Raise x, tbl)).
  { unfold save_weather_data, resolve_min_age. now rewrite He. }
  split; [exact Hsave|]. split.
  - unfold save_weather_task. rewrite Hc, Ht, Hh, Hp, Hd. simpl. now rewrite Hsave.
  - intros [d|] st v; reflexivity.
Qed.

Lemma malformed_MIN_AGE_MINUTES_witness :
  save_weather_task
    {| p_city := Some "Moscow,ru"; p_temperature := Some (JInt 21);
       p_humidity := Some (JInt 40); p_pressure := Some (JInt 1013);
       p_description := Some (JStr "clear sky") |}
    (set_MIN_AGE_MINUTES (Some (Raise ValueError)) (env_ok minute)) []
  = (StatusMessage "error" ValueError, []).
Proof.
  refine (proj1 (proj2 (malformed_MIN_AGE_MINUTES
            {| p_city := Some "Moscow,ru"; p_temperature := Some (JInt 21);
               p_humidity := Some (JInt 40); p_pressure := Some (JInt 1013);
               p_description := Some (JStr "clear sky") |}
            (set_MIN_AGE_MINUTES (Some (Raise ValueError)) (env_ok minute)) []
            ValueError "Moscow,ru" (JInt 21) (JInt 40) (JInt 1013)
            (JStr "clear sky") eq_refl eq_refl eq_refl eq_refl eq_refl eq_refl))).
Defined.
